(** * Customer data ETL pipeline (src/etl.py): model and properties

    The pipeline reads a CSV file into a DataFrame, upserts its rows into a
    staging table, rewrites three Yes/No columns, derives the tables
    customers, products and purchases once, and fills missing review
    ratings with their average.

    The program is mostly SQL sent to a relational store, so the model has
    two layers:
    - the store: typed tables and the meaning of each statement the
      program issues ([run_statement]);
    - the Python code: a state-and-exception monad over the store and the
      log, in which [try]/[except], [with] and [for] are written as the
      source has them. *)

From Stdlib Require Import List String Ascii ZArith QArith Bool Lia.
From Stdlib Require Import Permutation Qround.
From Stdlib Require Import DecimalString.
Import ListNotations.

Local Open Scope string_scope.
Local Open Scope Z_scope.

(** ** Cells of a DataFrame *)

(** A cell as [df.to_dict(orient='records')] hands it over: a missing
    value, an integer, a floating-point number or a string.  Floating-point
    numbers are modelled by exact rationals.  [Null] is Python's [None];
    the not-a-number float that [pd.read_csv] puts in a missing cell is not
    a rational and has no counterpart here, so the statements about whole
    files below are about files without missing cells. *)
Inductive value : Type :=
| Null
| Int (z : Z)
| Float (q : Q)
| Text (s : string).

(** A Python dict with string keys, in insertion order, keys unique. *)
Definition dict (V : Type) : Type := list (string * V).

Fixpoint dict_get {V : Type} (k : string) (d : dict V) : option V :=
  match d with
  | [] => None
  | (k', v) :: d' => if String.eqb k k' then Some v else dict_get k d'
  end.

(** [d[k] = v]: replaces the value of an existing key in place, appends a
    new key. *)
Fixpoint dict_set {V : Type} (k : string) (v : V) (d : dict V) : dict V :=
  match d with
  | [] => [(k, v)]
  | (k', v') :: d' =>
      if String.eqb k k' then (k, v) :: d' else (k', v') :: dict_set k v d'
  end.

Definition dict_of_pairs {V : Type} (l : list (string * V)) : dict V :=
  fold_left (fun d kv => dict_set (fst kv) (snd kv) d) l [].

Definition keys {V : Type} (d : dict V) : list string := map fst d.

Definition record : Type := dict value.

(** A DataFrame: column labels and rows of cells. *)
Record DataFrame : Type := mkDataFrame {
  columns : list string;
  data : list (list value)
}.

(** Lines 21-41. *)
Definition column_mapping : dict string :=
  [ ("Customer ID", "customer_id");
    ("Payment Method", "payment_method");
    ("Item Purchased", "item_purchased");
    ("Size", "size");
    ("Preferred Payment Method", "preferred_payment_method");
    ("Discount Applied", "discount_applied");
    ("Color", "color");
    ("Purchase Amount (USD)", "purchase_amount");
    ("Gender", "gender");
    ("Season", "season");
    ("Shipping Type", "shipping_type");
    ("Review Rating", "review_rating");
    ("Age", "age");
    ("Frequency of Purchases", "frequency_of_purchase");
    ("Promo Code Used", "promo_code_used");
    ("Subscription Status", "subscription_status");
    ("Category", "category");
    ("Location", "location");
    ("Previous Purchases", "previous_purchase") ].

(** [df.rename(columns=mapping)]: a label of the mapping is replaced, any
    other label is kept as it is. *)
Definition rename (mapping : dict string) (df : DataFrame) : DataFrame :=
  {| columns :=
       map (fun c => match dict_get c mapping with Some c' => c' | None => c end)
           (columns df);
     data := data df |}.

(** [df.to_dict(orient='records')]: one dict per row. *)
Definition to_dict (df : DataFrame) : list record :=
  map (fun cells => dict_of_pairs (combine (columns df) cells)) (data df).

(** ** The staging schema (lines 80-100 and 192-212) *)

(** [Integer], [Float] and [String] of the source; the underscore keeps
    them apart from the constructors of [value] and [string]. *)
Inductive column_type : Type := Integer_ | Float_ | String_.

Record Column : Type := mkColumn {
  key : string;
  type_ : column_type;
  primary_key : bool
}.

Definition TABLE_SCHEMA : list Column :=
  [ mkColumn "customer_id" Integer_ true;
    mkColumn "category" String_ false;
    mkColumn "age" Integer_ false;
    mkColumn "gender" String_ false;
    mkColumn "location" String_ false;
    mkColumn "color" String_ false;
    mkColumn "size" String_ false;
    mkColumn "season" String_ false;
    mkColumn "item_purchased" String_ false;
    mkColumn "purchase_amount" Float_ false;
    mkColumn "review_rating" Float_ false;
    mkColumn "subscription_status" String_ false;
    mkColumn "payment_method" String_ false;
    mkColumn "shipping_type" String_ false;
    mkColumn "discount_applied" String_ false;
    mkColumn "promo_code_used" String_ false;
    mkColumn "previous_purchase" String_ false;
    mkColumn "preferred_payment_method" String_ false;
    mkColumn "frequency_of_purchase" String_ false ].

Definition PRIMARY_KEYS : list string := ["customer_id"].

(** A row of the staging table, one field per column of [TABLE_SCHEMA]:
    an Integer column holds an integer, a Float column a number, a String
    column a text; every column but the primary key may hold NULL
    ([None]). *)
Record staging_row : Type := mkStagingRow {
  customer_id : Z;
  category : option string;
  age : option Z;
  gender : option string;
  location : option string;
  color : option string;
  size : option string;
  season : option string;
  item_purchased : option string;
  purchase_amount : option Q;
  review_rating : option Q;
  subscription_status : option string;
  payment_method : option string;
  shipping_type : option string;
  discount_applied : option string;
  promo_code_used : option string;
  previous_purchase : option string;
  preferred_payment_method : option string;
  frequency_of_purchase : option string
}.

(** Rows of the derived tables (the SELECT lists of lines 127, 137, 146). *)
Record customer_row : Type := mkCustomer {
  c_customer_id : Z;
  c_age : option Z;
  c_gender : option string;
  c_subscription_status : option string
}.

Record product_row : Type := mkProduct {
  p_item_purchased : option string;
  p_category : option string;
  p_size : option string;
  p_color : option string;
  p_season : option string
}.

Record purchase_row : Type := mkPurchase {
  u_customer_id : Z;
  u_item_purchased : option string;
  u_purchase_amount : option Q;
  u_location : option string;
  u_review_rating : option Q
}.

(** ** The store *)

(** A table that does not exist is [None].  [indexes] holds the names of
    the indexes created so far.  A table is written as the list of its
    rows; the store keeps no order among them, and the order of the list
    stands for nothing: [same_rows] and [same_store] compare tables and
    stores without it. *)
Record database : Type := mkDatabase {
  staging : option (list staging_row);
  indexes : list string;
  customers : option (list customer_row);
  products : option (list product_row);
  purchases : option (list purchase_row)
}.

(** What a statement can raise. *)
Inductive exn : Type :=
| CompileError (unconsumed : list string)
| NotNullViolation (column : string)
| DataError (column : string)
| UndefinedTable (name : string)
| UndefinedColumn (name : string)
| DuplicateTable (name : string).

(** The staging table's name: the program runs with this one name
    (lines 190 and 229), and the model is fixed at it, as it is at
    [TABLE_SCHEMA] and [PRIMARY_KEYS]; the functions below do not take
    [staging_table_name], [table_schema] and [primary_keys] again. *)
Definition STAGING_TABLE_NAME : string := "staging_customer_data".

(** ** Parameters of a statement *)

(** How the driver and the store turn a non-null Python value into a value
    of a column type ([None]: the store refuses it).  This conversion is
    not code of src/etl.py; the model takes it as a parameter, and every
    general theorem below holds for all of them. *)
Class Adapter : Type := mkAdapter {
  to_integer : value -> option Z;
  to_float : value -> option Q;
  to_text : value -> option string
}.

(** The range of an Integer column (32 bits). *)
Definition int4 (z : Z) : bool :=
  (-2147483648 <=? z) && (z <=? 2147483647).

(** The whole number nearest to a decimal, halves away from zero: the
    store's conversion of a decimal literal to an integer. *)
Definition round_half_away (q : Q) : Z :=
  if Qle_bool 0 q
  then Qfloor (q + (1 # 2))
  else (- Qfloor (- q + (1 # 2)))%Z.

Definition is_whole (q : Q) : bool := Zpos (Qden (Qred q)) =? 1.

(** One adapter, used in the examples.  The driver writes an integer and a
    float as a numeric literal and a string as a string literal, and the
    store converts the literal to the column's type: for an Integer column
    an integer within 32 bits, a float rounded to such an integer; for a
    Float column an integer or a float; for a String column a string, the
    decimal text of an integer, and for a whole float below 10^16 its
    decimal text with one decimal.  It is stricter than the store where
    the text is not a function of the rational (another float for a String
    column) and on strings sent to numeric columns, which the examples do
    not use. *)
Definition dataset_adapter : Adapter :=
  {| to_integer := fun v =>
       match v with
       | Int z => if int4 z then Some z else None
       | Float q =>
           if int4 (round_half_away q) then Some (round_half_away q) else None
       | _ => None
       end;
     to_float := fun v =>
       match v with
       | Int z => Some (inject_Z z)
       | Float q => Some q
       | _ => None
       end;
     to_text := fun v =>
       match v with
       | Text s => Some s
       | Int z => Some (NilZero.string_of_int (Z.to_int z))
       | Float q =>
           if is_whole q && (Z.abs (Qnum (Qred q)) <? 10 ^ 16)
           then Some (NilZero.string_of_int (Z.to_int (Qnum (Qred q))) ++ ".0")
           else None
       | Null => None
       end |}.

(** Results of the store: an exception or a value. *)
Definition result (A : Type) : Type := (exn + A)%type.

Definition andThen {A B : Type} (r : result A) (f : A -> result B) : result B :=
  match r with
  | inl e => inl e
  | inr a => f a
  end.

Notation "x <- r ;;; k" := (andThen r (fun x => k))
  (at level 61, r at next level, right associativity).

(** The value a column receives from a record: NULL when the record has no
    such key or holds a missing value there, the converted value
    otherwise. *)
Definition cell {T : Type} (conv : value -> option T) (col : string)
    (rec : record) : result (option T) :=
  match dict_get col rec with
  | None => inr None
  | Some Null => inr None
  | Some v =>
      match conv v with
      | Some x => inr (Some x)
      | None => inl (DataError col)
      end
  end.

(** Keys of the record that name no column of the table: SQLAlchemy
    refuses to compile [insert(table_schema).values( **record )] when there
    is one (unconsumed column names). *)
Definition unconsumed_column_names (rec : record) : list string :=
  filter (fun k => negb (existsb (String.eqb k) (map key TABLE_SCHEMA)))
         (keys rec).

Section Store.

Context {adapter : Adapter}.

(** The row that [insert(table_schema).values( **record )] proposes for
    insertion.  A null primary key violates the key's NOT NULL constraint.
    A record without the key column at all is outside the model: the store
    would give it a key from the column's sequence, which is not modelled;
    here it fails like a null key, and the statements that depend on it
    are about records that carry the key ([has_customer_id]). *)
Definition values (rec : record) : result staging_row :=
  k <- cell to_integer "customer_id" rec ;;;
  match k with
  | None => inl (NotNullViolation "customer_id")
  | Some id =>
      c1 <- cell to_text "category" rec ;;;
      c2 <- cell to_integer "age" rec ;;;
      c3 <- cell to_text "gender" rec ;;;
      c4 <- cell to_text "location" rec ;;;
      c5 <- cell to_text "color" rec ;;;
      c6 <- cell to_text "size" rec ;;;
      c7 <- cell to_text "season" rec ;;;
      c8 <- cell to_text "item_purchased" rec ;;;
      c9 <- cell to_float "purchase_amount" rec ;;;
      c10 <- cell to_float "review_rating" rec ;;;
      c11 <- cell to_text "subscription_status" rec ;;;
      c12 <- cell to_text "payment_method" rec ;;;
      c13 <- cell to_text "shipping_type" rec ;;;
      c14 <- cell to_text "discount_applied" rec ;;;
      c15 <- cell to_text "promo_code_used" rec ;;;
      c16 <- cell to_text "previous_purchase" rec ;;;
      c17 <- cell to_text "preferred_payment_method" rec ;;;
      c18 <- cell to_text "frequency_of_purchase" rec ;;;
      inr (mkStagingRow id c1 c2 c3 c4 c5 c6 c7 c8 c9 c10 c11 c12 c13 c14
             c15 c16 c17 c18)
  end.

End Store.

(** ** The upsert (lines 52-58) *)

(** [set_={c.key: c for c in stmt.excluded if not c.primary_key}]: every
    column that is not the primary key takes the value of the row proposed
    for insertion; the key column is not in the SET list. *)
Definition on_conflict_do_update (existing excluded : staging_row)
    : staging_row :=
  {| customer_id := customer_id existing;
     category := category excluded;
     age := age excluded;
     gender := gender excluded;
     location := location excluded;
     color := color excluded;
     size := size excluded;
     season := season excluded;
     item_purchased := item_purchased excluded;
     purchase_amount := purchase_amount excluded;
     review_rating := review_rating excluded;
     subscription_status := subscription_status excluded;
     payment_method := payment_method excluded;
     shipping_type := shipping_type excluded;
     discount_applied := discount_applied excluded;
     promo_code_used := promo_code_used excluded;
     previous_purchase := previous_purchase excluded;
     preferred_payment_method := preferred_payment_method excluded;
     frequency_of_purchase := frequency_of_purchase excluded |}.

(** [index_elements=primary_keys]: two rows conflict when they agree on
    customer_id. *)
Definition conflict (excluded existing : staging_row) : bool :=
  customer_id existing =? customer_id excluded.

(** INSERT ... ON CONFLICT (customer_id) DO UPDATE SET ...: the conflicting
    row is updated, a row without conflict is added.  (In the list the
    updated row keeps its place and the new row comes last; the store has
    no such order.) *)
Definition upsert (excluded : staging_row) (t : list staging_row)
    : list staging_row :=
  if existsb (conflict excluded) t
  then map (fun existing =>
              if conflict excluded existing
              then on_conflict_do_update existing excluded
              else existing) t
  else t ++ [excluded].

(** ** The Yes/No rewrite (lines 108-111) *)

(** The text a String column stores when a boolean is assigned to it. *)
Definition text_of_boolean (b : bool) : string :=
  if b then "true" else "false".

(** [col = 'Yes']: true for the text Yes only; the comparison of NULL is
    not true. *)
Definition is_Yes (v : option string) : bool :=
  match v with
  | Some s => String.eqb s "Yes"
  | None => false
  end.

(** [CASE WHEN col = 'Yes' THEN TRUE ELSE FALSE END], assigned to the
    String column [col]. *)
Definition case_when_Yes (v : option string) : option string :=
  Some (text_of_boolean (is_Yes v)).

(** The SET list of the UPDATE, applied to one row. *)
Definition yes_no_to_boolean (r : staging_row) : staging_row :=
  {| customer_id := customer_id r;
     category := category r;
     age := age r;
     gender := gender r;
     location := location r;
     color := color r;
     size := size r;
     season := season r;
     item_purchased := item_purchased r;
     purchase_amount := purchase_amount r;
     review_rating := review_rating r;
     subscription_status := case_when_Yes (subscription_status r);
     payment_method := payment_method r;
     shipping_type := shipping_type r;
     discount_applied := case_when_Yes (discount_applied r);
     promo_code_used := case_when_Yes (promo_code_used r);
     previous_purchase := previous_purchase r;
     preferred_payment_method := preferred_payment_method r;
     frequency_of_purchase := frequency_of_purchase r |}.

(** ** The derived tables (lines 125-148) *)

Definition customer_of (r : staging_row) : customer_row :=
  mkCustomer (customer_id r) (age r) (gender r) (subscription_status r).

Definition product_of (r : staging_row) : product_row :=
  mkProduct (item_purchased r) (category r) (size r) (color r) (season r).

Definition purchase_of (r : staging_row) : purchase_row :=
  mkPurchase (customer_id r) (item_purchased r) (purchase_amount r)
             (location r) (review_rating r).

Definition option_eq_dec {A : Type} (dec : forall x y : A, {x = y} + {x <> y})
    (x y : option A) : {x = y} + {x <> y}.
Proof. decide equality. Defined.

Definition customer_row_eq_dec (x y : customer_row) : {x = y} + {x <> y}.
Proof.
  decide equality;
    solve [ apply (option_eq_dec string_dec)
          | apply (option_eq_dec Z.eq_dec)
          | apply Z.eq_dec ].
Defined.

Definition product_row_eq_dec (x y : product_row) : {x = y} + {x <> y}.
Proof. decide equality; apply (option_eq_dec string_dec). Defined.

(** SELECT DISTINCT: each row once; two NULLs are not distinct.  The order
    of the result stands for nothing. *)
Definition SELECT_DISTINCT {A : Type} (dec : forall x y : A, {x = y} + {x <> y})
    (rows : list A) : list A :=
  nodup dec rows.

(** ** The rating repair (lines 154-160) *)

Definition sum (l : list Q) : Q := fold_right Qplus 0%Q l.

(** AVG over the selected rows: NULL when there is none. *)
Definition AVG (l : list Q) : option Q :=
  match l with
  | [] => None
  | _ :: _ => Some (Qred (sum l / inject_Z (Z.of_nat (List.length l))))
  end.

(** [SELECT review_rating FROM purchases WHERE review_rating IS NOT NULL]. *)
Fixpoint non_null_ratings (rows : list purchase_row) : list Q :=
  match rows with
  | [] => []
  | r :: rows' =>
      match u_review_rating r with
      | Some q => q :: non_null_ratings rows'
      | None => non_null_ratings rows'
      end
  end.

Definition set_review_rating (r : purchase_row) (v : option Q) : purchase_row :=
  mkPurchase (u_customer_id r) (u_item_purchased r) (u_purchase_amount r)
             (u_location r) v.

(** [UPDATE purchases SET review_rating = avg_rating.avg_rating FROM
    avg_rating WHERE review_rating IS NULL]: [avg_rating] has exactly one
    row, so every purchase whose rating is NULL is updated. *)
Definition fill_rating (avg_rating : option Q) (r : purchase_row) : purchase_row :=
  match u_review_rating r with
  | None => set_review_rating r avg_rating
  | Some _ => r
  end.

Definition fill_missing_ratings (rows : list purchase_row) : list purchase_row :=
  let avg_rating := AVG (non_null_ratings rows) in
  map (fill_rating avg_rating) rows.

(** ** Statements and their effect on the store *)

(** The statements the program sends. *)
Inductive statement : Type :=
| Upsert (rec : record)               (* lines 52-58 *)
| UpdateYesNo                         (* lines 108-111 *)
| CreateIndex (column_name : string)  (* line 120 *)
| CreateCustomers                     (* lines 126-128 *)
| CreateProducts                      (* lines 136-138 *)
| CreatePurchases                     (* lines 145-147 *)
| UpdateMissingRatings.               (* lines 154-160 *)

Definition set_staging (d : database) (t : list staging_row) : database :=
  mkDatabase (Some t) (indexes d) (customers d) (products d) (purchases d).

Definition set_indexes (d : database) (l : list string) : database :=
  mkDatabase (staging d) l (customers d) (products d) (purchases d).

Definition set_customers (d : database) (t : list customer_row) : database :=
  mkDatabase (staging d) (indexes d) (Some t) (products d) (purchases d).

Definition set_products (d : database) (t : list product_row) : database :=
  mkDatabase (staging d) (indexes d) (customers d) (Some t) (purchases d).

Definition set_purchases (d : database) (t : list purchase_row) : database :=
  mkDatabase (staging d) (indexes d) (customers d) (products d) (Some t).

(** FROM the staging table: it has to exist. *)
Definition from_staging (d : database) : result (list staging_row) :=
  match staging d with
  | Some t => inr t
  | None => inl (UndefinedTable STAGING_TABLE_NAME)
  end.

Definition index_name (column_name : string) : string :=
  "idx_" ++ column_name.

Section Statements.

Context {adapter : Adapter}.

(** One statement, run in a transaction of its own: the new store, or the
    exception, in which case the store is as before.  CREATE TABLE ... AS
    SELECT analyses its SELECT first: a missing staging table is reported
    before an existing target. *)
Definition run_statement (s : statement) (d : database) : result database :=
  match s with
  | Upsert rec =>
      match unconsumed_column_names rec with
      | (_ :: _) as l => inl (CompileError l)
      | [] =>
          t <- from_staging d ;;;
          r <- values rec ;;;
          inr (set_staging d (upsert r t))
      end
  | UpdateYesNo =>
      t <- from_staging d ;;;
      inr (set_staging d (map yes_no_to_boolean t))
  | CreateIndex column_name =>
      t <- from_staging d ;;;
      if negb (existsb (String.eqb column_name) (map key TABLE_SCHEMA))
      then inl (UndefinedColumn column_name)
      else if existsb (String.eqb (index_name column_name)) (indexes d)
      then inl (DuplicateTable (index_name column_name))
      else inr (set_indexes d (indexes d ++ [index_name column_name]))
  | CreateCustomers =>
      t <- from_staging d ;;;
      match customers d with
      | Some _ => inl (DuplicateTable "customers")
      | None =>
          inr (set_customers d
                 (SELECT_DISTINCT customer_row_eq_dec (map customer_of t)))
      end
  | CreateProducts =>
      t <- from_staging d ;;;
      match products d with
      | Some _ => inl (DuplicateTable "products")
      | None =>
          inr (set_products d
                 (SELECT_DISTINCT product_row_eq_dec (map product_of t)))
      end
  | CreatePurchases =>
      t <- from_staging d ;;;
      match purchases d with
      | Some _ => inl (DuplicateTable "purchases")
      | None =>
          inr (set_purchases d (map purchase_of t))
      end
  | UpdateMissingRatings =>
      match purchases d with
      | None => inl (UndefinedTable "purchases")
      | Some rows => inr (set_purchases d (fill_missing_ratings rows))
      end
  end.

End Statements.

(** ** The Python code *)

(** A line of the log: [logging.error] is called twice for a caught
    exception, with its message and with the stack trace. *)
Inductive log_line : Type :=
| Message (e : exn)
| Traceback (e : exn).

(** What the program acts on: the store behind [engine], the log, and the
    statements handed to [conn.execute] so far, in order, whether they
    failed or not ([history] is an observation of the run, nothing reads
    it). *)
Record world : Type := mkWorld {
  db : database;
  log : list log_line;
  history : list statement
}.

(** A Python call returns or raises. *)
Inductive outcome (A : Type) : Type :=
| Returned (a : A) (w : world)
| Raised (e : exn) (w : world).

Arguments Returned {A} a w.
Arguments Raised {A} e w.

Definition py (A : Type) : Type := world -> outcome A.

Definition ret {A : Type} (a : A) : py A := fun w => Returned a w.

Definition bind {A B : Type} (m : py A) (k : A -> py B) : py B :=
  fun w =>
    match m w with
    | Returned a w' => k a w'
    | Raised e w' => Raised e w'
    end.

Notation "x <- m ;; k" := (bind m (fun x => k))
  (at level 61, m at next level, right associativity).
Notation "m >> k" := (bind m (fun _ => k))
  (at level 61, right associativity).

(** [try: body except Exception as e: handler(e)]. *)
Definition try_except (body : py unit) (handler : exn -> py unit) : py unit :=
  fun w =>
    match body w with
    | Returned a w' => Returned a w'
    | Raised e w' => handler e w'
    end.

(** [for x in l: body(x)]: an exception raised by the body leaves the
    loop. *)
Fixpoint for_each {A : Type} (l : list A) (body : A -> py unit) : py unit :=
  match l with
  | [] => ret tt
  | x :: l' => body x >> for_each l' body
  end.

Definition logging_error (line : log_line) : py unit :=
  fun w => Returned tt (mkWorld (db w) (log w ++ [line]) (history w)).

Definition exists_table {A : Type} (t : option (list A)) : bool :=
  match t with
  | Some _ => true
  | None => false
  end.

(** The tables of the store by name. *)
Definition table_exists (d : database) (table_name : string) : bool :=
  if String.eqb table_name "customers" then exists_table (customers d)
  else if String.eqb table_name "products" then exists_table (products d)
  else if String.eqb table_name "purchases" then exists_table (purchases d)
  else if String.eqb table_name STAGING_TABLE_NAME then exists_table (staging d)
  else false.

(** [inspect(engine).has_table(table_name)]. *)
Definition has_table (table_name : string) : py bool :=
  fun w => Returned (table_exists (db w) table_name) w.

(** [with engine.connect() as conn: body]: the source never commits, so
    the connection is one on which each executed statement is committed on
    its own (one write transaction per row); leaving the block, also through
    an exception, undoes nothing. *)
Definition engine_connect (body : py unit) : py unit := body.

(** [with engine.begin() as conn: body]: one transaction around the body,
    committed when the body returns and rolled back when it raises. *)
Definition engine_begin (body : py unit) : py unit :=
  fun w =>
    match body w with
    | Returned a w' => Returned a w'
    | Raised e w' => Raised e (mkWorld (db w) (log w') (history w'))
    end.

Section Program.

Context {adapter : Adapter}.

(** [conn.execute(stmt)]. *)
Definition conn_execute (s : statement) : py unit :=
  fun w =>
    let h := (history w ++ [s])%list in
    match run_statement s (db w) with
    | inr d => Returned tt (mkWorld d (log w) h)
    | inl e => Raised e (mkWorld (db w) (log w) h)
    end.

(** Lines 19-64.  The [try] encloses the renaming, the conversion and the
    whole loop. *)
Definition load_to_staging (df : DataFrame) : py unit :=
  try_except
    (let df := rename column_mapping df in
     let list_to_write := to_dict df in
     engine_connect
       (for_each list_to_write (fun record => conn_execute (Upsert record))))
    (fun e => logging_error (Message e) >> logging_error (Traceback e)).

(** Lines 67-75. *)
Definition execute_sql (sql : statement) : py unit :=
  try_except
    (engine_begin (conn_execute sql))
    (fun e => logging_error (Message e) >> logging_error (Traceback e)).

(** Lines 77-103: [metadata.create_all(engine)] creates the staging table
    when it does not exist and leaves an existing one alone. *)
Definition staging_database_schema : py unit :=
  fun w =>
    match staging (db w) with
    | Some _ => Returned tt w
    | None => Returned tt (mkWorld (set_staging (db w) []) (log w) (history w))
    end.

(** Lines 105-113. *)
Definition convert_yes_no_to_boolean : py unit :=
  execute_sql UpdateYesNo.

(** Lines 118-121. *)
Definition create_index (column_name : string) : py unit :=
  execute_sql (CreateIndex column_name).

(** Lines 123-130. *)
Definition create_customers_table : py unit :=
  execute_sql CreateCustomers.

(** Lines 132-140. *)
Definition create_products_table : py unit :=
  execute_sql CreateProducts.

(** Lines 142-149. *)
Definition create_purchases_table : py unit :=
  execute_sql CreatePurchases.

(** Lines 151-162. *)
Definition update_missing_review_ratings : py unit :=
  execute_sql UpdateMissingRatings.

(** Lines 174-179, the guarded block of [transform_and_load] (the Schema
    Normalizer of the specification). *)
Definition schema_normalizer : py unit :=
  normalized <- has_table "customers" ;;
  if negb normalized
  then create_index "customer_id" >>
       create_customers_table >>
       create_purchases_table >>
       create_products_table
  else ret tt.

(** Lines 171-181. *)
Definition transform_and_load : py unit :=
  convert_yes_no_to_boolean >>
  schema_normalizer >>
  update_missing_review_ratings.

(** Lines 165-169, from the extracted data on ([extract] reads the
    file). *)
Definition etl (data : DataFrame) : py unit :=
  staging_database_schema >>
  load_to_staging data >>
  transform_and_load.

End Program.

(** ** Vocabulary of the statements proved below *)

Section Vocabulary.

Context {adapter : Adapter}.

(** What the store makes of one record when the staging table exists: the
    row to upsert, or the exception of the statement. *)
Definition proposed_row (rec : record) : result staging_row :=
  match unconsumed_column_names rec with
  | (_ :: _) as l => inl (CompileError l)
  | [] => values rec
  end.

(** The rows of the records before the first one that fails. *)
Fixpoint accepted_prefix (recs : list record) : list staging_row :=
  match recs with
  | [] => []
  | rec :: recs' =>
      match proposed_row rec with
      | inr r => r :: accepted_prefix recs'
      | inl _ => []
      end
  end.

(** The records the loop hands to [conn.execute]: all up to and including
    the first one that fails. *)
Fixpoint attempted (recs : list record) : list record :=
  match recs with
  | [] => []
  | rec :: recs' =>
      match proposed_row rec with
      | inr _ => rec :: attempted recs'
      | inl _ => [rec]
      end
  end.

(** The exception of the first record that fails, when there is one. *)
Fixpoint first_failure (recs : list record) : option exn :=
  match recs with
  | [] => None
  | rec :: recs' =>
      match proposed_row rec with
      | inr _ => first_failure recs'
      | inl e => Some e
      end
  end.

(** The world [execute_sql] leaves: the statement took effect, or it
    failed and its exception went to the log. *)
Definition after_execute_sql (sql : statement) (w : world) : world :=
  match run_statement sql (db w) with
  | inr d => mkWorld d (log w) (history w ++ [sql])
  | inl e =>
      mkWorld (db w) (log w ++ [Message e; Traceback e]) (history w ++ [sql])
  end.

(** A run of the pipeline on a store: the whole [etl] on some extracted
    data, or [transform_and_load] alone. *)
Inductive run : Type :=
| Run_etl (data : DataFrame)
| Run_transform_and_load.

Definition perform (r : run) : py unit :=
  match r with
  | Run_etl data => etl data
  | Run_transform_and_load => transform_and_load
  end.

End Vocabulary.

(** Upserting rows one after the other. *)
Definition upsert_all (rows : list staging_row) (t : list staging_row)
    : list staging_row :=
  fold_left (fun t r => upsert r t) rows t.

(** The last row of [rows] with customer_id [k]. *)
Fixpoint latest (k : Z) (rows : list staging_row) : option staging_row :=
  match rows with
  | [] => None
  | r :: rows' =>
      match latest k rows' with
      | Some r' => Some r'
      | None => if customer_id r =? k then Some r else None
      end
  end.

Definition ids (t : list staging_row) : list Z := map customer_id t.

(** The statements one call of [transform_and_load] sends, given whether
    the customers table exists when the call starts. *)
Definition statements_of_transform_and_load (normalized : bool)
    : list statement :=
  [UpdateYesNo] ++
  (if normalized then []
   else [CreateIndex "customer_id"; CreateCustomers; CreatePurchases;
         CreateProducts]) ++
  [UpdateMissingRatings].


(** The upsert as a substitution: a row with the key of [r] becomes [r]. *)
Definition replace_by (r x : staging_row) : staging_row :=
  if conflict r x then r else x.

(** On a table that already has every key of the batch, the batch is a
    substitution of the last row of each key. *)
Definition replace_by_latest (rows : list staging_row) (x : staging_row)
    : staging_row :=
  match latest (customer_id x) rows with
  | Some r => r
  | None => x
  end.

(** The columns of a staging row other than the primary key. *)
Definition non_key_columns (r : staging_row) :=
  (category r, age r, gender r, location r, color r, size r, season r,
   item_purchased r, purchase_amount r, review_rating r,
   subscription_status r, payment_method r, shipping_type r,
   discount_applied r, promo_code_used r, previous_purchase r,
   preferred_payment_method r, frequency_of_purchase r).

(** ** Stores and inputs used in the examples *)

Definition world_of (d : database) : world := mkWorld d [] [].

(** No table at all. *)
Definition empty_database : database := mkDatabase None [] None None None.

(** The staging table alone, as [staging_database_schema] and the loader
    leave it. *)
Definition staged (t : list staging_row) : database :=
  mkDatabase (Some t) [] None None None.

(** A staging row with the given key, item, rating and subscription
    status, NULL elsewhere. *)
Definition simple_row (id : Z) (item : string) (rating : option Q)
    (status : option string) : staging_row :=
  mkStagingRow id None None None None None None None (Some item) None rating
               status None None None None None None None.

Definition simple_columns : list string :=
  ["Customer ID"; "Item Purchased"; "Review Rating"; "Subscription Status"].

(** Three rows, the second one without customer_id. *)
Definition batch_with_null_key : DataFrame :=
  mkDataFrame simple_columns
    [ [Int 1; Text "Blouse"; Float 4; Text "Yes"];
      [Null; Text "Sweater"; Float 2; Text "No"];
      [Int 7; Text "Jeans"; Null; Text "Yes"] ].

(** Two rows, the first one without customer_id. *)
Definition batch_null_key_first : DataFrame :=
  mkDataFrame simple_columns
    [ [Null; Text "Sweater"; Float 2; Text "No"];
      [Int 5; Text "Jeans"; Float 3; Text "Yes"] ].

(** One row for customer 1. *)
Definition batch_customer_1 : DataFrame :=
  mkDataFrame simple_columns [ [Int 1; Text "Coat"; Float 5; Text "No"] ].

(** The records of the batches above, after the renaming, and the rows
    the store makes of them. *)
Definition record_of (id : value) (item : string) (rating : value)
    (status : string) : record :=
  [ ("customer_id", id); ("item_purchased", Text item);
    ("review_rating", rating); ("subscription_status", Text status) ].

Definition record_1 : record := record_of (Int 1) "Blouse" (Float 4) "Yes".
Definition record_null : record := record_of Null "Sweater" (Float 2) "No".
Definition record_7 : record := record_of (Int 7) "Jeans" Null "Yes".
Definition record_5 : record := record_of (Int 5) "Jeans" (Float 3) "Yes".
Definition record_coat : record := record_of (Int 1) "Coat" (Float 5) "No".

Definition row_1 : staging_row := simple_row 1 "Blouse" (Some 4%Q) (Some "Yes").
Definition row_2 : staging_row := simple_row 2 "Sandals" None (Some "No").
Definition row_5 : staging_row := simple_row 5 "Jeans" (Some 3%Q) (Some "Yes").
Definition row_7 : staging_row := simple_row 7 "Jeans" None (Some "Yes").
Definition row_coat : staging_row := simple_row 1 "Coat" (Some 5%Q) (Some "No").

(** Customer 1 twice, customer 3 in between. *)
Definition batch_repeated_key : DataFrame :=
  mkDataFrame simple_columns
    [ [Int 1; Text "Coat"; Float 5; Text "No"];
      [Int 3; Text "Hat"; Null; Text "Yes"];
      [Int 1; Text "Scarf"; Float 2; Text "Yes"] ].

(** A store in which customers exists and the other derived tables and
    the index do not. *)
Definition partially_normalized : database :=
  mkDatabase (Some [row_1; row_2]) []
             (Some [customer_of row_1; customer_of row_2]) None None.

(** Two files of one row each: customer 1, subscribed, and customer 2. *)
Definition file_customer_1 : DataFrame :=
  mkDataFrame simple_columns [ [Int 1; Text "Blouse"; Float 4; Text "Yes"] ].

Definition file_customer_2 : DataFrame :=
  mkDataFrame simple_columns [ [Int 2; Text "Sandals"; Null; Text "No"] ].

(** The world a call leaves, returned or raised. *)
Definition world_after (m : py unit) (w : world) : world :=
  match m w with
  | Returned _ w' => w'
  | Raised _ w' => w'
  end.

(** customer_id and subscription_status of the staging rows. *)
Definition subscriptions (w : world) : option (list (Z * option string)) :=
  option_map (map (fun r => (customer_id r, subscription_status r)))
             (staging (db w)).

(** One row for customer 1 with Yes in the three status columns. *)
Definition yes_row : staging_row :=
  mkStagingRow 1 None None None None None None None (Some "Blouse") None
               (Some 4%Q) (Some "Yes") None None (Some "Yes") (Some "Yes")
               None None None.

(** The store after a first normalization of the given purchases. *)
Definition normalized (rows : list purchase_row) : database :=
  mkDatabase (Some []) ["idx_customer_id"] (Some []) (Some []) (Some rows).

(** Customer 7 without rating, two other purchases rated 4 and 2 (the
    scenario of the specification). *)
Definition purchases_scenario : list purchase_row :=
  [ mkPurchase 7 (Some "Jeans") (Some 50%Q) None None;
    mkPurchase 8 (Some "Blouse") (Some 20%Q) None (Some 4%Q);
    mkPurchase 9 (Some "Coat") (Some 30%Q) None (Some 2%Q) ].

(** One purchase, not rated. *)
Definition purchases_unrated : list purchase_row :=
  [ mkPurchase 7 (Some "Jeans") (Some 50%Q) None None ].

(** The Yes/No rewrite of one column: the text true exactly for the text
    Yes, the text false for every other value and for NULL. *)
Definition coerced (before after : option string) : Prop :=
  (after = Some "true" <-> before = Some "Yes") /\
  (before <> Some "Yes" -> after = Some "false").

(** The store after a statement run on its own: as the statement leaves
    it, or as it was when the statement fails. *)
Definition exec {adapter : Adapter} (sql : statement) (d : database)
    : database :=
  match run_statement sql d with
  | inr d' => d'
  | inl _ => d
  end.

(** The world the guarded block leaves. *)
Definition after_schema_normalizer {adapter : Adapter} (w : world) : world :=
  if exists_table (customers (db w)) then w
  else after_execute_sql CreateProducts
         (after_execute_sql CreatePurchases
            (after_execute_sql CreateCustomers
               (after_execute_sql (CreateIndex "customer_id") w))).

(** What no run of the pipeline changes once customers exists. *)
Definition derived_frame (d d' : database) : Prop :=
  customers d' = customers d /\
  products d' = products d /\
  exists_table (purchases d') = exists_table (purchases d) /\
  indexes d' = indexes d.

(** The sixteen columns of a staging row that [convert_yes_no_to_boolean]
    does not name, with the key. *)
Definition other_columns (r : staging_row) :=
  (customer_id r, category r, age r, gender r, location r, color r, size r,
   season r, item_purchased r, purchase_amount r, review_rating r,
   payment_method r, shipping_type r, previous_purchase r,
   preferred_payment_method r, frequency_of_purchase r).

(** The three status columns of a staging row. *)
Definition statuses (r : staging_row) :=
  (subscription_status r, discount_applied r, promo_code_used r).

(** A purchase without its rating. *)
Definition purchase_facts (r : purchase_row) :=
  (u_customer_id r, u_item_purchased r, u_purchase_amount r, u_location r).

(** The ratings of a purchases table, null or not. *)
Definition ratings (rows : list purchase_row) : list (option Q) :=
  map u_review_rating rows.

(** The store the guarded block leaves, and the store a whole [etl] run
    on some data leaves (proved below to be what the code computes). *)
Definition db_schema_normalizer {adapter : Adapter} (d : database)
    : database :=
  if exists_table (customers d) then d
  else exec CreateProducts
         (exec CreatePurchases
            (exec CreateCustomers (exec (CreateIndex "customer_id") d))).

Definition db_etl {adapter : Adapter} (data : DataFrame) (d : database)
    : database :=
  let t0 := match staging d with Some t => t | None => [] end in
  let ingested := accepted_prefix (to_dict (rename column_mapping data)) in
  exec UpdateMissingRatings
    (db_schema_normalizer
       (exec UpdateYesNo (set_staging d (upsert_all ingested t0)))).

(** One row with a column that the mapping does not know. *)
Definition batch_unmapped_label : DataFrame :=
  mkDataFrame
    ["Customer ID"; "Item Purchased"; "Review Rating"; "Subscription Status";
     "Loyalty Tier"]
    [ [Int 1; Text "Blouse"; Float 4; Text "Yes"; Text "Gold"] ].

Definition record_2 : record := record_of (Int 2) "Sandals" Null "No".

(** ** Tables as sets of rows *)

(** Two tables with the same rows, whatever their order; two tables that
    do not exist are the same. *)
Definition same_rows {A : Type} (t t' : option (list A)) : Prop :=
  match t, t' with
  | Some l, Some l' => Permutation l l'
  | None, None => True
  | _, _ => False
  end.

(** Two stores with the same tables and the same indexes. *)
Definition same_store (d d' : database) : Prop :=
  same_rows (staging d) (staging d') /\
  Permutation (indexes d) (indexes d') /\
  same_rows (customers d) (customers d') /\
  same_rows (products d) (products d') /\
  same_rows (purchases d) (purchases d').

(** The record carries the key column (its value may be null). *)
Definition has_customer_id (rec : record) : bool :=
  match dict_get "customer_id" rec with
  | Some _ => true
  | None => false
  end.

Definition is_Null (v : value) : bool :=
  match v with
  | Null => true
  | _ => false
  end.

(** The record carries the key column and has no missing cell: a row of
    a file that has the Customer ID column and no empty field. *)
Definition complete_record (rec : record) : bool :=
  has_customer_id rec && forallb (fun kv => negb (is_Null (snd kv))) rec.

(** Two rows without missing cell. *)
Definition batch_complete : DataFrame :=
  mkDataFrame simple_columns
    [ [Int 1; Text "Blouse"; Float 4; Text "Yes"];
      [Int 2; Text "Sandals"; Float 3; Text "No"] ].

(** * Properties *)

(** ** The upsert on the staging table *)

Lemma on_conflict_do_update_excluded (existing excluded : staging_row) :
  conflict excluded existing = true ->
  on_conflict_do_update existing excluded = excluded.
Proof.
  unfold conflict, on_conflict_do_update. intros H.
  apply Z.eqb_eq in H. destruct excluded; simpl in *. now rewrite H.
Qed.

Lemma existsb_conflict_ids (r : staging_row) (t : list staging_row) :
  existsb (conflict r) t = true <-> In (customer_id r) (ids t).
Proof.
  unfold ids. rewrite existsb_exists, in_map_iff. unfold conflict.
  split; intros [x [H1 H2]]; exists x.
  - apply Z.eqb_eq in H2. tauto.
  - split; [tauto | now apply Z.eqb_eq].
Qed.

Lemma upsert_conflict (r : staging_row) (t : list staging_row) :
  In (customer_id r) (ids t) -> upsert r t = map (replace_by r) t.
Proof.
  intros H. unfold upsert. apply existsb_conflict_ids in H. rewrite H.
  apply map_ext. intros x. unfold replace_by.
  destruct (conflict r x) eqn:E; [now apply on_conflict_do_update_excluded | reflexivity].
Qed.

Lemma upsert_fresh (r : staging_row) (t : list staging_row) :
  ~ In (customer_id r) (ids t) -> upsert r t = (t ++ [r])%list.
Proof.
  intros H. unfold upsert.
  destruct (existsb (conflict r) t) eqn:E; [| reflexivity].
  apply existsb_conflict_ids in E. contradiction.
Qed.

Lemma ids_replace_by (r : staging_row) (t : list staging_row) :
  ids (map (replace_by r) t) = ids t.
Proof.
  unfold ids. rewrite map_map. apply map_ext. intros x. unfold replace_by, conflict.
  destruct (customer_id x =? customer_id r) eqn:E; [| reflexivity].
  apply Z.eqb_eq in E. now symmetry.
Qed.

Lemma in_dec_ids (k : Z) (t : list staging_row) :
  In k (ids t) \/ ~ In k (ids t).
Proof. destruct (in_dec Z.eq_dec k (ids t)); tauto. Qed.

Lemma ids_upsert (r : staging_row) (t : list staging_row) (k : Z) :
  In k (ids (upsert r t)) <-> In k (ids t) \/ k = customer_id r.
Proof.
  destruct (in_dec_ids (customer_id r) t) as [H | H].
  - rewrite (upsert_conflict _ _ H), ids_replace_by.
    split; [tauto | intros [H1 | ->]; assumption].
  - rewrite (upsert_fresh _ _ H). unfold ids. rewrite map_app, in_app_iff.
    simpl. intuition.
Qed.

Lemma NoDup_ids_upsert (r : staging_row) (t : list staging_row) :
  NoDup (ids t) -> NoDup (ids (upsert r t)).
Proof.
  intros N. destruct (in_dec_ids (customer_id r) t) as [H | H].
  - now rewrite (upsert_conflict _ _ H), ids_replace_by.
  - rewrite (upsert_fresh _ _ H). unfold ids in *. rewrite map_app. simpl.
    apply NoDup_app; [assumption | constructor; [easy | constructor] |].
    intros x Hx [<- | []]. contradiction.
Qed.

(** A row of the table after an upsert is the upserted row or an untouched
    row with another key. *)
Lemma in_upsert (r x : staging_row) (t : list staging_row) :
  In x (upsert r t) ->
  x = r \/ (In x t /\ customer_id x <> customer_id r).
Proof.
  destruct (in_dec_ids (customer_id r) t) as [H | H].
  - rewrite (upsert_conflict _ _ H), in_map_iff. intros [y [<- Hy]].
    unfold replace_by, conflict.
    destruct (customer_id y =? customer_id r) eqn:E; [now left | right].
    apply Z.eqb_neq in E. tauto.
  - rewrite (upsert_fresh _ _ H), in_app_iff. simpl.
    intros [Hx | [<- | []]]; [right | now left].
    split; [assumption |]. intros E. apply H. rewrite <- E.
    unfold ids. now apply in_map.
Qed.

Lemma ids_upsert_all (rows t : list staging_row) (k : Z) :
  In k (ids (upsert_all rows t)) <-> In k (ids t) \/ In k (ids rows).
Proof.
  revert t. induction rows as [| r rows IH]; intros t; simpl.
  - tauto.
  - unfold upsert_all in *. simpl. rewrite IH, ids_upsert. intuition.
Qed.

Lemma NoDup_ids_upsert_all (rows t : list staging_row) :
  NoDup (ids t) -> NoDup (ids (upsert_all rows t)).
Proof.
  revert t. induction rows as [| r rows IH]; intros t N; simpl; [assumption |].
  apply IH. now apply NoDup_ids_upsert.
Qed.

Lemma latest_None (k : Z) (rows : list staging_row) :
  latest k rows = None <-> ~ In k (ids rows).
Proof.
  induction rows as [| r rows IH]; simpl; [tauto |].
  destruct (latest k rows) as [r' |].
  - split; [discriminate | intros H; exfalso; apply H; right].
    destruct (in_dec_ids k rows) as [I | I]; [assumption |].
    apply IH in I. discriminate.
  - destruct (customer_id r =? k) eqn:E.
    + apply Z.eqb_eq in E. split; [discriminate | intros H; exfalso; apply H; now left].
    + apply Z.eqb_neq in E. split; [| reflexivity].
      intros _ [H | H]; [contradiction |]. now apply IH in H.
Qed.

Lemma latest_key (k : Z) (rows : list staging_row) (r : staging_row) :
  latest k rows = Some r -> customer_id r = k /\ In r rows.
Proof.
  induction rows as [| r0 rows IH]; simpl; [discriminate |].
  destruct (latest k rows) as [r' |].
  - intros [= ->]. destruct (IH eq_refl). tauto.
  - destruct (customer_id r0 =? k) eqn:E; [| discriminate].
    intros [= ->]. apply Z.eqb_eq in E. tauto.
Qed.

(** After a batch of upserts a row of the table is the last upserted row
    with its key, or a row that was there before and that no upsert
    touched. *)
Lemma in_upsert_all (rows t : list staging_row) (x : staging_row) :
  In x (upsert_all rows t) ->
  match latest (customer_id x) rows with
  | Some r => x = r
  | None => In x t
  end.
Proof.
  revert t. induction rows as [| r rows IH]; intros t H; simpl in *; [assumption |].
  unfold upsert_all in *. simpl in H. specialize (IH _ H).
  destruct (latest (customer_id x) rows) as [r' |]; [assumption |].
  destruct (in_upsert _ _ _ IH) as [-> | [Hx Hk]].
  - now rewrite Z.eqb_refl.
  - destruct (customer_id r =? customer_id x) eqn:E; [| assumption].
    apply Z.eqb_eq in E. congruence.
Qed.

Lemma upsert_all_present (rows t : list staging_row) :
  (forall k, In k (ids rows) -> In k (ids t)) ->
  upsert_all rows t = map (replace_by_latest rows) t.
Proof.
  revert t. induction rows as [| r rows IH]; intros t H.
  - simpl. unfold replace_by_latest. simpl. now rewrite map_id.
  - unfold upsert_all in *. simpl.
    rewrite (upsert_conflict r t) by (apply H; now left).
    rewrite IH.
    + rewrite map_map. apply map_ext. intros x.
      unfold replace_by_latest, replace_by, conflict. simpl.
      destruct (customer_id x =? customer_id r) eqn:E.
      * apply Z.eqb_eq in E. rewrite E.
        destruct (latest (customer_id r) rows); [reflexivity |].
        now rewrite Z.eqb_refl.
      * destruct (latest (customer_id x) rows); [reflexivity |].
        rewrite Z.eqb_sym, E. reflexivity.
    + intros k Hk. rewrite ids_replace_by. apply H. now right.
Qed.

(** Upserting the same batch again changes nothing. *)
Lemma upsert_all_twice (rows t : list staging_row) :
  upsert_all rows (upsert_all rows t) = upsert_all rows t.
Proof.
  rewrite (upsert_all_present rows (upsert_all rows t)).
  - rewrite <- (map_id (upsert_all rows t)) at 2.
    apply map_ext_in. intros x Hx. unfold replace_by_latest.
    apply in_upsert_all in Hx.
    destruct (latest (customer_id x) rows); congruence.
  - intros k Hk. apply ids_upsert_all. now right.
Qed.

(** ** The loader *)

Lemma same_rows_refl {A : Type} (t : option (list A)) : same_rows t t.
Proof. destruct t; simpl; [apply Permutation_refl | exact I]. Qed.

Lemma same_rows_eq {A : Type} (t t' : option (list A)) :
  t = t' -> same_rows t t'.
Proof. intros ->. apply same_rows_refl. Qed.

Lemma same_store_refl (d : database) : same_store d d.
Proof.
  unfold same_store.
  repeat split; (apply same_rows_refl || apply Permutation_refl).
Qed.

Section Loader.

Context {adapter : Adapter}.

Lemma set_staging_same (d : database) (t : list staging_row) :
  staging d = Some t -> set_staging d t = d.
Proof. destruct d; simpl; intros ->; reflexivity. Qed.

Lemma run_upsert (d : database) (t : list staging_row) (rec : record) :
  staging d = Some t ->
  run_statement (Upsert rec) d =
  (r <- proposed_row rec ;;; inr (set_staging d (upsert r t))).
Proof.
  intros H. unfold run_statement, proposed_row, from_staging. rewrite H.
  destruct (unconsumed_column_names rec); reflexivity.
Qed.

Lemma run_upsert_no_table (d : database) (rec : record) :
  staging d = None -> exists e, run_statement (Upsert rec) d = inl e.
Proof.
  intros H. unfold run_statement, from_staging. rewrite H.
  destruct (unconsumed_column_names rec); simpl; eauto.
Qed.

(** The loop of lines 50-59 on an existing staging table: the rows before
    the first failing record are upserted, and that record's exception
    leaves the loop. *)
Lemma for_each_upsert (recs : list record) :
  forall (w : world) (t : list staging_row),
    staging (db w) = Some t ->
    for_each recs (fun record => conn_execute (Upsert record)) w =
    let w' := mkWorld (set_staging (db w) (upsert_all (accepted_prefix recs) t))
                      (log w) (history w ++ map Upsert (attempted recs)) in
    match first_failure recs with
    | None => Returned tt w'
    | Some e => Raised e w'
    end.
Proof.
  induction recs as [| rec recs IH]; intros w t H; simpl.
  - unfold ret, upsert_all. simpl. rewrite app_nil_r, (set_staging_same _ _ H).
    now destruct w.
  - unfold bind, conn_execute. rewrite (run_upsert _ _ _ H).
    destruct (proposed_row rec) as [e | r]; simpl.
    + unfold upsert_all. simpl. now rewrite (set_staging_same _ _ H).
    + rewrite (IH _ (upsert r t)) by reflexivity. simpl.
      rewrite <- app_assoc. simpl.
      destruct (first_failure recs); reflexivity.
Qed.

(** What [load_to_staging] leaves on an existing staging table. *)
Lemma load_to_staging_outcome (df : DataFrame) (w : world)
    (t : list staging_row) :
  staging (db w) = Some t ->
  let recs := to_dict (rename column_mapping df) in
  load_to_staging df w =
  Returned tt
    (mkWorld (set_staging (db w) (upsert_all (accepted_prefix recs) t))
       (log w ++ match first_failure recs with
                 | None => []
                 | Some e => [Message e; Traceback e]
                 end)
       (history w ++ map Upsert (attempted recs))).
Proof.
  intros H recs. unfold load_to_staging, try_except, engine_connect.
  fold recs. rewrite (for_each_upsert recs w t H). simpl.
  destruct (first_failure recs); simpl.
  - unfold bind, logging_error. simpl. now rewrite <- app_assoc.
  - now rewrite app_nil_r.
Qed.

(** Without a staging table no statement of the loader takes effect. *)
Lemma load_to_staging_no_table (df : DataFrame) (w : world) :
  staging (db w) = None ->
  exists w', load_to_staging df w = Returned tt w' /\ db w' = db w.
Proof.
  intros H. unfold load_to_staging, try_except, engine_connect.
  destruct (to_dict (rename column_mapping df)) as [| rec recs]; simpl.
  - eexists. split; reflexivity.
  - unfold bind at 1. unfold conn_execute.
    destruct (run_upsert_no_table (db w) rec H) as [e ->].
    eexists. split; reflexivity.
Qed.

Lemma accepted_prefix_split (loaded : list record) (rows : list staging_row)
    (bad : record) (e : exn) (rest : list record) :
  Forall2 (fun rec r => proposed_row rec = inr r) loaded rows ->
  proposed_row bad = inl e ->
  accepted_prefix (loaded ++ bad :: rest) = rows /\
  first_failure (loaded ++ bad :: rest) = Some e /\
  attempted (loaded ++ bad :: rest) = (loaded ++ [bad])%list.
Proof.
  intros F B. induction F as [| rec r loaded rows Hr F IH]; simpl.
  - now rewrite B.
  - rewrite Hr. destruct IH as (-> & -> & ->). auto.
Qed.

Lemma accepted_prefix_all (recs : list record) (rows : list staging_row) :
  Forall2 (fun rec r => proposed_row rec = inr r) recs rows ->
  accepted_prefix recs = rows /\ first_failure recs = None /\
  attempted recs = recs.
Proof.
  intros F. induction F as [| rec r loaded rows Hr F IH]; simpl; [auto |].
  rewrite Hr. destruct IH as (-> & -> & ->). auto.
Qed.

(** C1, as the code has it.  A single [try] encloses the whole loop of
    [load_to_staging]: when a record fails (null primary key, a column
    that does not map, a value the store refuses), its exception leaves
    the loop, is logged once and is not raised to the caller; the rows
    before it are in staging, and neither the failing row nor any row
    after it in the batch is written or even sent to the store. *)
Theorem load_to_staging_stops_at_first_failure
    (df : DataFrame) (w : world) (t : list staging_row)
    (loaded : list record) (rows : list staging_row)
    (bad : record) (e : exn) (rest : list record) :
  staging (db w) = Some t ->
  to_dict (rename column_mapping df) = (loaded ++ bad :: rest)%list ->
  Forall2 (fun rec r => proposed_row rec = inr r) loaded rows ->
  proposed_row bad = inl e ->
  load_to_staging df w =
  Returned tt
    (mkWorld (set_staging (db w) (upsert_all rows t))
       (log w ++ [Message e; Traceback e])
       (history w ++ map Upsert (loaded ++ [bad]))).
Proof.
  intros H E F B. rewrite (load_to_staging_outcome df w t H). simpl.
  rewrite E. destruct (accepted_prefix_split _ _ _ _ rest F B) as (-> & -> & ->).
  reflexivity.
Qed.

Lemma Forall2_replace_by (r : staging_row) (t : list staging_row) :
  Forall2
    (fun existing after =>
       if customer_id existing =? customer_id r
       then customer_id after = customer_id existing /\
            non_key_columns after = non_key_columns r
       else after = existing)
    t (map (replace_by r) t).
Proof.
  induction t as [| x t IH]; simpl; constructor; [| assumption].
  unfold replace_by, conflict.
  destruct (customer_id x =? customer_id r) eqn:E; [| reflexivity].
  apply Z.eqb_eq in E. auto.
Qed.

(** C5.  Loading one row whose customer_id is already in staging: the
    staging row with that customer_id keeps its key and takes the incoming
    value in every other column; every row with another customer_id is left
    as it was, and no row is added or removed. *)
Theorem load_to_staging_upsert_frame
    (df : DataFrame) (w : world) (t : list staging_row)
    (rec : record) (r : staging_row) :
  staging (db w) = Some t ->
  to_dict (rename column_mapping df) = [rec] ->
  proposed_row rec = inr r ->
  In (customer_id r) (ids t) ->
  exists (w' : world) (t' : list staging_row),
    load_to_staging df w = Returned tt w' /\
    staging (db w') = Some t' /\
    log w' = log w /\
    Forall2
      (fun existing after =>
         if customer_id existing =? customer_id r
         then customer_id after = customer_id existing /\
              non_key_columns after = non_key_columns r
         else after = existing)
      t t'.
Proof.
  intros H E P I. rewrite (load_to_staging_outcome df w t H). simpl.
  rewrite E. simpl. rewrite P. simpl. unfold upsert_all. simpl.
  eexists. eexists. split; [reflexivity |]. simpl.
  split; [reflexivity |]. split; [now rewrite app_nil_r |].
  rewrite (upsert_conflict r t I). apply Forall2_replace_by.
Qed.

(** C6, as the code has it.  For an input whose records all carry the
    customer_id column (for a record without it the store would draw the
    key from a sequence, which [values] does not describe): running the
    loader a second time on the same input leaves the store with the tables
    and rows the first run left, whatever the store.  On a staging table
    with one row per customer_id, the table after the loader has one row
    per customer_id, for the customer_ids that were in staging and those of
    the rows before the first failing row of the input, each holding the
    values of the last such input row, or its former values when the input
    has none. *)
Theorem load_to_staging_idempotent_latest (df : DataFrame) (w : world) :
  Forall (fun rec => has_customer_id rec = true)
         (to_dict (rename column_mapping df)) ->
  (exists w1 w2 : world,
     load_to_staging df w = Returned tt w1 /\
     load_to_staging df w1 = Returned tt w2 /\
     same_store (db w2) (db w1)) /\
  (forall t : list staging_row,
     staging (db w) = Some t ->
     NoDup (ids t) ->
     let ingested := accepted_prefix (to_dict (rename column_mapping df)) in
     exists (w1 : world) (t1 : list staging_row),
       load_to_staging df w = Returned tt w1 /\
       staging (db w1) = Some t1 /\
       NoDup (ids t1) /\
       (forall k, In k (ids t1) <-> In k (ids t) \/ In k (ids ingested)) /\
       (forall x, In x t1 ->
                  match latest (customer_id x) ingested with
                  | Some r => x = r
                  | None => In x t
                  end)).
Proof.
  intros _. split.
  - destruct (staging (db w)) as [t |] eqn:H.
    + rewrite (load_to_staging_outcome df w t H). simpl.
      eexists. eexists. split; [reflexivity |].
      erewrite load_to_staging_outcome by reflexivity. simpl.
      split; [reflexivity |].
      rewrite upsert_all_twice. destruct (db w). apply same_store_refl.
    + destruct (load_to_staging_no_table df w H) as (w1 & E1 & D1).
      assert (H1 : staging (db w1) = None) by now rewrite D1.
      destruct (load_to_staging_no_table df w1 H1) as (w2 & E2 & D2).
      exists w1, w2. split; [assumption |]. split; [assumption |].
      rewrite D2. apply same_store_refl.
  - intros t H N ingested.
    rewrite (load_to_staging_outcome df w t H). simpl.
    eexists. eexists. split; [reflexivity |]. simpl.
    split; [reflexivity |]. fold ingested.
    split; [now apply NoDup_ids_upsert_all |].
    split; [apply ids_upsert_all | apply in_upsert_all].
Qed.

End Loader.

(** ** Statements sent through [execute_sql] *)

Section Transform.

Context {adapter : Adapter}.

Lemma execute_sql_outcome (sql : statement) (w : world) :
  execute_sql sql w = Returned tt (after_execute_sql sql w).
Proof.
  unfold execute_sql, try_except, engine_begin, conn_execute, after_execute_sql.
  destruct (run_statement sql (db w)) as [e | d]; simpl; [| reflexivity].
  unfold bind, logging_error. simpl. now rewrite <- app_assoc.
Qed.

Lemma history_after_execute_sql (sql : statement) (w : world) :
  history (after_execute_sql sql w) = (history w ++ [sql])%list.
Proof.
  unfold after_execute_sql. now destruct (run_statement sql (db w)).
Qed.

Lemma schema_normalizer_outcome (w : world) :
  schema_normalizer w = Returned tt (after_schema_normalizer w).
Proof.
  unfold schema_normalizer, after_schema_normalizer, bind, has_table.
  unfold create_index, create_customers_table, create_purchases_table,
    create_products_table.
  change (table_exists (db w) "customers") with (exists_table (customers (db w))).
  destruct (exists_table (customers (db w))); cbn [negb]; [reflexivity |].
  now rewrite !execute_sql_outcome.
Qed.

Lemma transform_and_load_outcome (w : world) :
  transform_and_load w =
  Returned tt
    (after_execute_sql UpdateMissingRatings
       (after_schema_normalizer (after_execute_sql UpdateYesNo w))).
Proof.
  unfold transform_and_load, bind, convert_yes_no_to_boolean,
    update_missing_review_ratings.
  now rewrite execute_sql_outcome, schema_normalizer_outcome, execute_sql_outcome.
Qed.

Lemma customers_after_UpdateYesNo (w : world) :
  customers (db (after_execute_sql UpdateYesNo w)) = customers (db w).
Proof.
  unfold after_execute_sql, run_statement, from_staging.
  now destruct (staging (db w)).
Qed.

Lemma history_after_schema_normalizer (w : world) :
  history (after_schema_normalizer w) =
  (history w ++
   if exists_table (customers (db w)) then []
   else [CreateIndex "customer_id"; CreateCustomers; CreatePurchases;
         CreateProducts])%list.
Proof.
  unfold after_schema_normalizer.
  destruct (exists_table (customers (db w))).
  - now rewrite app_nil_r.
  - rewrite !history_after_execute_sql, <- !app_assoc. reflexivity.
Qed.

(** C8.  [execute_sql] returns whatever the statement does: a failing
    statement leaves the store as it was, its exception goes to the log and
    is not raised to the caller.  [transform_and_load] therefore returns
    too, having sent every statement of its sequence to the store, in
    order, whichever of them failed. *)
Theorem execute_sql_swallows_failure (w : world) :
  (forall sql : statement,
     exists w' : world,
       execute_sql sql w = Returned tt w' /\
       history w' = (history w ++ [sql])%list /\
       match run_statement sql (db w) with
       | inl e => db w' = db w /\ log w' = (log w ++ [Message e; Traceback e])%list
       | inr d => db w' = d /\ log w' = log w
       end) /\
  (exists w' : world,
     transform_and_load w = Returned tt w' /\
     history w' =
     (history w ++
      statements_of_transform_and_load (exists_table (customers (db w))))%list).
Proof.
  split.
  - intros sql. exists (after_execute_sql sql w).
    split; [apply execute_sql_outcome |].
    split; [apply history_after_execute_sql |].
    unfold after_execute_sql. destruct (run_statement sql (db w)); auto.
  - eexists. split; [apply transform_and_load_outcome |].
    rewrite history_after_execute_sql, history_after_schema_normalizer,
      customers_after_UpdateYesNo, history_after_execute_sql.
    unfold statements_of_transform_and_load. now rewrite <- !app_assoc.
Qed.

(** *** The Type Normalizer *)

Lemma is_Yes_iff (v : option string) : is_Yes v = true <-> v = Some "Yes".
Proof.
  destruct v as [s |]; simpl; [| split; discriminate].
  rewrite String.eqb_eq. split; [now intros -> | now intros [= ->]].
Qed.

Lemma case_when_Yes_coerced (v : option string) : coerced v (case_when_Yes v).
Proof.
  unfold coerced, case_when_Yes. rewrite <- is_Yes_iff.
  destruct (is_Yes v); simpl; split; try split; try congruence; discriminate.
Qed.

Lemma convert_yes_no_to_boolean_outcome (w : world) (t : list staging_row) :
  staging (db w) = Some t ->
  convert_yes_no_to_boolean w =
  Returned tt
    (mkWorld (set_staging (db w) (map yes_no_to_boolean t)) (log w)
       (history w ++ [UpdateYesNo])).
Proof.
  intros H. unfold convert_yes_no_to_boolean. rewrite execute_sql_outcome.
  unfold after_execute_sql, run_statement, from_staging. now rewrite H.
Qed.

(** C4.  After [convert_yes_no_to_boolean] on an existing staging table,
    row by row: subscription_status holds true (the text true, the form a
    boolean takes in a String column) exactly when it held the text Yes
    before, and false for every other former value, NULL included; the
    same for discount_applied and promo_code_used.  No row is added or
    removed and the keys stay. *)
Theorem convert_yes_no_to_boolean_coerces (w : world) (t : list staging_row) :
  staging (db w) = Some t ->
  exists (w' : world) (t' : list staging_row),
    convert_yes_no_to_boolean w = Returned tt w' /\
    staging (db w') = Some t' /\
    log w' = log w /\
    Forall2
      (fun before after =>
         customer_id after = customer_id before /\
         coerced (subscription_status before) (subscription_status after) /\
         coerced (discount_applied before) (discount_applied after) /\
         coerced (promo_code_used before) (promo_code_used after))
      t t'.
Proof.
  intros H. rewrite (convert_yes_no_to_boolean_outcome w t H).
  eexists. eexists. split; [reflexivity |]. simpl.
  split; [reflexivity |]. split; [reflexivity |].
  clear H. induction t as [| r t IH]; simpl; constructor; [| assumption].
  simpl. auto using case_when_Yes_coerced.
Qed.

(** A second application finds no text Yes any more: every status column
    of every row ends as false. *)
Lemma yes_no_to_boolean_twice (r : staging_row) :
  subscription_status (yes_no_to_boolean (yes_no_to_boolean r)) = Some "false" /\
  discount_applied (yes_no_to_boolean (yes_no_to_boolean r)) = Some "false" /\
  promo_code_used (yes_no_to_boolean (yes_no_to_boolean r)) = Some "false".
Proof.
  simpl. unfold case_when_Yes.
  destruct (is_Yes (subscription_status r)), (is_Yes (discount_applied r)),
    (is_Yes (promo_code_used r)); auto.
Qed.

(** *** Quality Repair *)

Lemma update_missing_review_ratings_outcome (w : world)
    (rows : list purchase_row) :
  purchases (db w) = Some rows ->
  update_missing_review_ratings w =
  Returned tt
    (mkWorld (set_purchases (db w) (fill_missing_ratings rows)) (log w)
       (history w ++ [UpdateMissingRatings])).
Proof.
  intros H. unfold update_missing_review_ratings. rewrite execute_sql_outcome.
  unfold after_execute_sql, run_statement. now rewrite H.
Qed.

Lemma AVG_is_mean (l : list Q) :
  l <> [] ->
  exists avg : Q,
    AVG l = Some avg /\
    (avg * inject_Z (Z.of_nat (List.length l)) == sum l)%Q.
Proof.
  intros H. destruct l as [| q l]; [contradiction |].
  eexists. split; [reflexivity |].
  rewrite Qred_correct.
  set (n := inject_Z (Z.of_nat (List.length (q :: l)))).
  assert (Hn : ~ (n == 0)%Q).
  { unfold n, Qeq. simpl. lia. }
  rewrite Qmult_comm. now apply Qmult_div_r.
Qed.

Lemma non_null_ratings_nil (rows : list purchase_row) :
  non_null_ratings rows = [] <-> Forall (fun r => u_review_rating r = None) rows.
Proof.
  induction rows as [| r rows IH]; simpl.
  - split; auto.
  - destruct (u_review_rating r) eqn:E.
    + split; [discriminate | intros F; inversion F; congruence].
    + rewrite IH. split; [intros F; now constructor | intros F; now inversion F].
Qed.

Lemma Forall2_fill_rating (avg : option Q) (rows : list purchase_row) :
  Forall2
    (fun before after =>
       match u_review_rating before with
       | Some _ => after = before
       | None => after = set_review_rating before avg
       end)
    rows (map (fill_rating avg) rows).
Proof.
  induction rows as [| r rows IH]; simpl; constructor; [| assumption].
  unfold fill_rating. now destruct (u_review_rating r).
Qed.

(** C3, as the code has it.  When at least one review_rating of purchases
    is not null, [update_missing_review_ratings] leaves no null
    review_rating: a rating that was null is the mean of the ratings that
    were not (their sum divided by their number), a rating that was not
    null is unchanged, as is every other column of every row. *)
Theorem update_missing_review_ratings_fills_mean (w : world)
    (rows : list purchase_row) :
  purchases (db w) = Some rows ->
  non_null_ratings rows <> [] ->
  exists (w' : world) (rows' : list purchase_row) (avg : Q),
    update_missing_review_ratings w = Returned tt w' /\
    purchases (db w') = Some rows' /\
    log w' = log w /\
    (avg * inject_Z (Z.of_nat (List.length (non_null_ratings rows)))
     == sum (non_null_ratings rows))%Q /\
    Forall2
      (fun before after =>
         match u_review_rating before with
         | Some _ => after = before
         | None => after = set_review_rating before (Some avg)
         end)
      rows rows' /\
    Forall (fun after => u_review_rating after <> None) rows'.
Proof.
  intros H N. rewrite (update_missing_review_ratings_outcome w rows H).
  destruct (AVG_is_mean _ N) as (avg & A & M).
  eexists. eexists. exists avg. split; [reflexivity |]. simpl.
  split; [reflexivity |]. split; [reflexivity |]. split; [exact M |].
  unfold fill_missing_ratings. rewrite A.
  split; [apply Forall2_fill_rating |].
  apply Forall_forall. intros x Hx. apply in_map_iff in Hx.
  destruct Hx as (r & <- & _). unfold fill_rating.
  destruct (u_review_rating r) eqn:E; simpl; congruence.
Qed.

(** C9.  When every review_rating of purchases is null, the average is
    taken over no row and is null: [update_missing_review_ratings] leaves
    the store as it was and logs nothing. *)
Theorem update_missing_review_ratings_all_null (w : world)
    (rows : list purchase_row) :
  purchases (db w) = Some rows ->
  Forall (fun r => u_review_rating r = None) rows ->
  exists w' : world,
    update_missing_review_ratings w = Returned tt w' /\
    db w' = db w /\
    log w' = log w.
Proof.
  intros H F. rewrite (update_missing_review_ratings_outcome w rows H).
  eexists. split; [reflexivity |]. simpl. split; [| reflexivity].
  unfold fill_missing_ratings.
  apply non_null_ratings_nil in F as E. rewrite E. simpl.
  replace (map (fill_rating None) rows) with rows.
  - destruct (db w); simpl in *. now rewrite H.
  - clear H E. induction F as [| r rows Hr F IH]; simpl; [reflexivity |].
    rewrite <- IH. f_equal. unfold fill_rating, set_review_rating.
    rewrite Hr. destruct r; simpl in *. now rewrite Hr.
Qed.

(** *** The Schema Normalizer and its guard *)

Lemma db_after_execute_sql (sql : statement) (w : world) :
  db (after_execute_sql sql w) = exec sql (db w).
Proof.
  unfold after_execute_sql, exec. now destruct (run_statement sql (db w)).
Qed.

Lemma exec_CreateIndex (column_name : string) (d : database) :
  staging (exec (CreateIndex column_name) d) = staging d /\
  customers (exec (CreateIndex column_name) d) = customers d /\
  products (exec (CreateIndex column_name) d) = products d /\
  purchases (exec (CreateIndex column_name) d) = purchases d.
Proof.
  unfold exec, run_statement, from_staging, andThen.
  destruct (staging d) eqn:S; [| auto].
  destruct (negb (existsb (String.eqb column_name) (map key TABLE_SCHEMA)));
    [auto |].
  destruct (existsb (String.eqb (index_name column_name)) (indexes d));
    [auto |].
  unfold set_indexes. cbn [staging customers products purchases]. auto.
Qed.

Lemma exec_CreateCustomers (d : database) :
  staging (exec CreateCustomers d) = staging d /\
  customers (exec CreateCustomers d) =
    match customers d with
    | Some c => Some c
    | None =>
        option_map
          (fun t => SELECT_DISTINCT customer_row_eq_dec (map customer_of t))
          (staging d)
    end /\
  products (exec CreateCustomers d) = products d /\
  purchases (exec CreateCustomers d) = purchases d.
Proof.
  unfold exec, run_statement, from_staging, andThen.
  destruct (staging d) eqn:S; destruct (customers d) eqn:C; simpl;
    rewrite ?S, ?C; auto.
Qed.

Lemma exec_CreatePurchases (d : database) :
  staging (exec CreatePurchases d) = staging d /\
  customers (exec CreatePurchases d) = customers d /\
  products (exec CreatePurchases d) = products d /\
  purchases (exec CreatePurchases d) =
    match purchases d with
    | Some u => Some u
    | None => option_map (map purchase_of) (staging d)
    end.
Proof.
  unfold exec, run_statement, from_staging, andThen.
  destruct (staging d) eqn:S; destruct (purchases d) eqn:U; simpl;
    rewrite ?S, ?U; auto.
Qed.

Lemma exec_CreateProducts (d : database) :
  staging (exec CreateProducts d) = staging d /\
  customers (exec CreateProducts d) = customers d /\
  products (exec CreateProducts d) =
    match products d with
    | Some p => Some p
    | None =>
        option_map
          (fun t => SELECT_DISTINCT product_row_eq_dec (map product_of t))
          (staging d)
    end /\
  purchases (exec CreateProducts d) = purchases d.
Proof.
  unfold exec, run_statement, from_staging, andThen.
  destruct (staging d) eqn:S; destruct (products d) eqn:P; simpl;
    rewrite ?S, ?P; auto.
Qed.

(** Without the staging table none of the four statements of the guarded
    block takes effect. *)
Lemma exec_create_without_staging (sql : statement) (d : database) :
  staging d = None ->
  In sql [CreateIndex "customer_id"; CreateCustomers; CreatePurchases;
          CreateProducts] ->
  exec sql d = d.
Proof.
  intros S I. unfold exec, run_statement, from_staging. rewrite S.
  simpl in I. destruct I as [<- | [<- | [<- | [<- | []]]]]; simpl.
  - reflexivity.
  - now destruct (customers d).
  - now destruct (purchases d).
  - now destruct (products d).
Qed.

Lemma exec_block_without_staging (d : database) :
  staging d = None ->
  exec CreateProducts
    (exec CreatePurchases
       (exec CreateCustomers (exec (CreateIndex "customer_id") d))) = d.
Proof.
  intros S.
  rewrite (exec_create_without_staging (CreateIndex "customer_id") d S)
    by (simpl; auto).
  rewrite (exec_create_without_staging CreateCustomers d S) by (simpl; auto).
  rewrite (exec_create_without_staging CreatePurchases d S) by (simpl; auto).
  apply (exec_create_without_staging CreateProducts d S). simpl. auto.
Qed.

Lemma db_after_schema_normalizer (w : world) :
  db (after_schema_normalizer w) =
  if exists_table (customers (db w)) then db w
  else exec CreateProducts
         (exec CreatePurchases
            (exec CreateCustomers (exec (CreateIndex "customer_id") (db w)))).
Proof.
  unfold after_schema_normalizer.
  destruct (exists_table (customers (db w))); [reflexivity |].
  now rewrite !db_after_execute_sql.
Qed.

Lemma after_schema_normalizer_guarded (w : world) :
  exists_table (customers (db w)) = true -> after_schema_normalizer w = w.
Proof. unfold after_schema_normalizer. now intros ->. Qed.

(** The tables the guarded block leaves when customers did not exist and
    staging did. *)
Lemma db_after_schema_normalizer_staged (w : world) (t : list staging_row) :
  staging (db w) = Some t ->
  customers (db w) = None ->
  let d1 := db (after_schema_normalizer w) in
  customers d1 =
    Some (SELECT_DISTINCT customer_row_eq_dec (map customer_of t)) /\
  products d1 =
    match products (db w) with
    | Some p => Some p
    | None => Some (SELECT_DISTINCT product_row_eq_dec (map product_of t))
    end /\
  purchases d1 =
    match purchases (db w) with
    | Some u => Some u
    | None => Some (map purchase_of t)
    end.
Proof.
  intros S C d1. unfold d1. rewrite db_after_schema_normalizer, C. simpl.
  set (da := exec (CreateIndex "customer_id") (db w)).
  destruct (exec_CreateIndex "customer_id" (db w)) as (A1 & A2 & A3 & A4).
  fold da in A1, A2, A3, A4.
  set (db_ := exec CreateCustomers da).
  destruct (exec_CreateCustomers da) as (B1 & B2 & B3 & B4).
  fold db_ in B1, B2, B3, B4.
  set (dc := exec CreatePurchases db_).
  destruct (exec_CreatePurchases db_) as (C1 & C2 & C3 & C4).
  fold dc in C1, C2, C3, C4.
  destruct (exec_CreateProducts dc) as (D1 & D2 & D3 & D4).
  rewrite D2, D3, D4, C2, C3, C4, C1, B2, B3, B4, B1, A1, A2, A3, A4, S, C.
  simpl. auto.
Qed.

(** C7, as the code has it.  Of two invocations of the guarded block in
    sequence the second never creates a table: it leaves the store as the
    first left it.  When the staging table exists and none of customers,
    products and purchases does, the first invocation creates the three
    tables from staging, and the second sends no statement at all, so each
    table is created exactly once. *)
Theorem schema_normalizer_twice (w : world) :
  exists w1 w2 : world,
    schema_normalizer w = Returned tt w1 /\
    schema_normalizer w1 = Returned tt w2 /\
    db w2 = db w1 /\
    (forall t : list staging_row,
       staging (db w) = Some t ->
       customers (db w) = None ->
       products (db w) = None ->
       purchases (db w) = None ->
       customers (db w1) =
         Some (SELECT_DISTINCT customer_row_eq_dec (map customer_of t)) /\
       products (db w1) =
         Some (SELECT_DISTINCT product_row_eq_dec (map product_of t)) /\
       purchases (db w1) = Some (map purchase_of t) /\
       w2 = w1).
Proof.
  exists (after_schema_normalizer w),
    (after_schema_normalizer (after_schema_normalizer w)).
  split; [apply schema_normalizer_outcome |].
  split; [apply schema_normalizer_outcome |].
  destruct (customers (db w)) as [c |] eqn:C.
  - rewrite !(after_schema_normalizer_guarded w) by now rewrite C.
    split; [reflexivity |]. intros t _ [=].
  - destruct (staging (db w)) as [t |] eqn:S.
    + destruct (db_after_schema_normalizer_staged w t S C) as (E1 & E2 & E3).
      rewrite (after_schema_normalizer_guarded (after_schema_normalizer w))
        by now rewrite E1.
      split; [reflexivity |]. intros t' [= <-] _ P U.
      rewrite P in E2. rewrite U in E3. auto.
    + assert (D : db (after_schema_normalizer w) = db w).
      { rewrite db_after_schema_normalizer, C. cbn [exists_table].
        now apply exec_block_without_staging. }
      split; [| intros t [=]].
      rewrite (db_after_schema_normalizer (after_schema_normalizer w)), D, C.
      cbn [exists_table]. now apply exec_block_without_staging.
Qed.

Lemma derived_frame_refl (d : database) : derived_frame d d.
Proof. unfold derived_frame. auto. Qed.

Lemma derived_frame_trans (d1 d2 d3 : database) :
  derived_frame d1 d2 -> derived_frame d2 d3 -> derived_frame d1 d3.
Proof.
  unfold derived_frame. intros (A1 & A2 & A3 & A4) (B1 & B2 & B3 & B4).
  repeat split; congruence.
Qed.

Lemma derived_frame_set_staging (d : database) (t : list staging_row) :
  derived_frame d (set_staging d t).
Proof. unfold derived_frame. simpl. auto. Qed.

Lemma staging_database_schema_frame (w : world) :
  exists w' : world,
    staging_database_schema w = Returned tt w' /\
    derived_frame (db w) (db w').
Proof.
  unfold staging_database_schema. destruct (staging (db w)).
  - eexists. split; [reflexivity | apply derived_frame_refl].
  - eexists. split; [reflexivity | apply derived_frame_set_staging].
Qed.

Lemma load_to_staging_frame (df : DataFrame) (w : world) :
  exists w' : world,
    load_to_staging df w = Returned tt w' /\
    derived_frame (db w) (db w').
Proof.
  destruct (staging (db w)) as [t |] eqn:H.
  - rewrite (load_to_staging_outcome df w t H). simpl.
    eexists. split; [reflexivity | apply derived_frame_set_staging].
  - destruct (load_to_staging_no_table df w H) as (w' & E & D).
    exists w'. split; [assumption |]. rewrite D. apply derived_frame_refl.
Qed.

Lemma schema_normalizer_guarded (w : world) (c : list customer_row) :
  customers (db w) = Some c -> schema_normalizer w = Returned tt w.
Proof.
  intros H. rewrite schema_normalizer_outcome.
  unfold after_schema_normalizer. now rewrite H.
Qed.

Lemma transform_and_load_frame (w : world) (c : list customer_row) :
  customers (db w) = Some c ->
  exists w' : world,
    transform_and_load w = Returned tt w' /\
    derived_frame (db w) (db w').
Proof.
  intros H. eexists. split; [apply transform_and_load_outcome |].
  unfold after_schema_normalizer. rewrite customers_after_UpdateYesNo, H. simpl.
  destruct w as [[s i c' p u] l h]. simpl in H. subst c'.
  unfold after_execute_sql, run_statement, from_staging, derived_frame. simpl.
  destruct s; simpl; destruct u; simpl; auto.
Qed.

Lemma perform_frame (r : run) (w : world) (c : list customer_row) :
  customers (db w) = Some c ->
  exists w' : world,
    perform r w = Returned tt w' /\
    derived_frame (db w) (db w').
Proof.
  intros H. destruct r as [data |]; simpl; [| now apply (transform_and_load_frame w c)].
  unfold etl, bind.
  destruct (staging_database_schema_frame w) as (w1 & -> & F1).
  destruct (load_to_staging_frame data w1) as (w2 & -> & F2).
  pose proof (derived_frame_trans _ _ _ F1 F2) as F12.
  assert (H2 : customers (db w2) = Some c).
  { destruct F12 as (-> & _). assumption. }
  destruct (transform_and_load_frame w2 c H2) as (w3 & -> & F3).
  exists w3. split; [reflexivity |]. now apply (derived_frame_trans _ _ _ F12).
Qed.

(** C10.  The guard looks at customers only.  Once customers exists, the
    guarded block does nothing, and no sequence of later runs (the whole
    [etl] on any data, or [transform_and_load] alone) creates products,
    purchases or an index on staging: a table that is absent stays absent,
    and the indexes are those there were. *)
Theorem transform_and_load_never_completes (runs : list run) :
  forall (w : world) (c : list customer_row),
    customers (db w) = Some c ->
    schema_normalizer w = Returned tt w /\
    exists w' : world,
      for_each runs perform w = Returned tt w' /\
      customers (db w') = Some c /\
      products (db w') = products (db w) /\
      exists_table (purchases (db w')) = exists_table (purchases (db w)) /\
      indexes (db w') = indexes (db w).
Proof.
  intros w c H. split; [now apply (schema_normalizer_guarded w c) |].
  revert w H. induction runs as [| r runs IH]; intros w H; simpl.
  - exists w. unfold ret. auto.
  - unfold bind. destruct (perform_frame r w c H) as (w1 & -> & (F1 & F2 & F3 & F4)).
    assert (H1 : customers (db w1) = Some c) by congruence.
    destruct (IH w1 H1) as (w' & E & G1 & G2 & G3 & G4).
    exists w'. repeat split; congruence.
Qed.

End Transform.

(** ** The properties at concrete stores and inputs *)

Section Examples.

#[local] Existing Instance dataset_adapter.

Example to_dict_batch_with_null_key :
  to_dict (rename column_mapping batch_with_null_key) =
  [record_1; record_null; record_7].
Proof. reflexivity. Qed.

Example proposed_rows :
  proposed_row record_1 = inr row_1 /\
  proposed_row record_null = inl (NotNullViolation "customer_id") /\
  proposed_row record_7 = inr row_7 /\
  proposed_row (("Loyalty Tier", Text "Gold") :: record_7) =
    inl (CompileError ["Loyalty Tier"]).
Proof. repeat split; reflexivity. Qed.

(** Witness of C1, a batch of three rows whose second row has no
    customer_id, on an empty staging table. *)
Lemma load_to_staging_stops_at_first_failure_witness :
  load_to_staging batch_with_null_key (world_of (staged [])) =
  Returned tt
    (mkWorld (staged [row_1])
       [Message (NotNullViolation "customer_id");
        Traceback (NotNullViolation "customer_id")]
       [Upsert record_1; Upsert record_null]).
Proof.
  apply (load_to_staging_stops_at_first_failure
           batch_with_null_key (world_of (staged [])) []
           [record_1] [row_1] record_null (NotNullViolation "customer_id")
           [record_7]).
  - reflexivity.
  - reflexivity.
  - repeat constructor.
  - reflexivity.
Defined.

(** Counterexample to C1 as stated: in that batch the third row is valid
    (alone, the store accepts it as customer 7), yet after the loader
    staging has no row for customer 7. *)
Lemma load_to_staging_null_key_loses_later_row :
  In record_7 (to_dict (rename column_mapping batch_with_null_key)) /\
  proposed_row record_7 = inr row_7 /\
  exists (w' : world) (t' : list staging_row),
    load_to_staging batch_with_null_key (world_of (staged [])) =
      Returned tt w' /\
    staging (db w') = Some t' /\
    ~ In 7 (ids t').
Proof.
  split; [simpl; auto |]. split; [reflexivity |].
  eexists. eexists. split; [reflexivity |]. split; [reflexivity |].
  simpl. intros [H | []]. discriminate.
Qed.

(** Witness of C5, a staging table with customers 1 and 2 and an incoming
    row for customer 1: the row of customer 1 takes the incoming values, the
    row of customer 2 stays. *)
Lemma load_to_staging_upsert_frame_witness :
  exists (w' : world) (t' : list staging_row),
    load_to_staging batch_customer_1 (world_of (staged [row_1; row_2])) =
      Returned tt w' /\
    staging (db w') = Some t' /\
    log w' = [] /\
    Forall2
      (fun existing after =>
         if customer_id existing =? 1
         then customer_id after = customer_id existing /\
              non_key_columns after = non_key_columns row_coat
         else after = existing)
      [row_1; row_2] t'.
Proof.
  apply (load_to_staging_upsert_frame
           batch_customer_1 (world_of (staged [row_1; row_2]))
           [row_1; row_2] record_coat row_coat).
  - reflexivity.
  - reflexivity.
  - reflexivity.
  - simpl. auto.
Defined.

Example load_to_staging_upsert_frame_run :
  load_to_staging batch_customer_1 (world_of (staged [row_1; row_2])) =
  Returned tt (mkWorld (staged [row_coat; row_2]) [] [Upsert record_coat]).
Proof. reflexivity. Qed.

(** Counterexample to C6 as stated: customer 5 is seen in the input, in a
    valid row, but the row before it has no customer_id, and after the
    loader staging has no row at all. *)
Lemma load_to_staging_seen_key_without_row :
  In record_5 (to_dict (rename column_mapping batch_null_key_first)) /\
  proposed_row record_5 = inr row_5 /\
  customer_id row_5 = 5 /\
  exists w' : world,
    load_to_staging batch_null_key_first (world_of (staged [])) =
      Returned tt w' /\
    staging (db w') = Some [].
Proof.
  split; [simpl; auto |]. split; [reflexivity |]. split; [reflexivity |].
  eexists. split; reflexivity.
Qed.

(** Witness of C6, a staging table with customers 1 and 2 and a batch with
    customer 1 twice and customer 3 once, every record with its
    customer_id. *)
Lemma load_to_staging_idempotent_latest_witness :
  let df := batch_repeated_key in
  let w := world_of (staged [row_1; row_2]) in
  let ingested := accepted_prefix (to_dict (rename column_mapping df)) in
  Forall (fun rec => has_customer_id rec = true)
         (to_dict (rename column_mapping df)) /\
  (exists w1 w2 : world,
     load_to_staging df w = Returned tt w1 /\
     load_to_staging df w1 = Returned tt w2 /\
     same_store (db w2) (db w1)) /\
  exists (w1 : world) (t1 : list staging_row),
    load_to_staging df w = Returned tt w1 /\
    staging (db w1) = Some t1 /\
    NoDup (ids t1) /\
    (forall k, In k (ids t1) <-> In k (ids [row_1; row_2]) \/ In k (ids ingested)) /\
    (forall x, In x t1 ->
               match latest (customer_id x) ingested with
               | Some r => x = r
               | None => In x [row_1; row_2]
               end).
Proof.
  intros df w ingested.
  assert (K : Forall (fun rec => has_customer_id rec = true)
                     (to_dict (rename column_mapping df))).
  { repeat (apply Forall_cons; [reflexivity |]). apply Forall_nil. }
  split; [exact K |].
  split; [exact (proj1 (load_to_staging_idempotent_latest df w K)) |].
  apply (proj2 (load_to_staging_idempotent_latest df w K) [row_1; row_2]).
  - reflexivity.
  - simpl. repeat constructor; simpl; intuition discriminate.
Defined.

Example load_to_staging_twice_run :
  exists w1 : world,
    load_to_staging batch_repeated_key (world_of (staged [row_1; row_2])) =
      Returned tt w1 /\
    staging (db w1) =
      Some [ simple_row 1 "Scarf" (Some 2%Q) (Some "Yes"); row_2;
             simple_row 3 "Hat" None (Some "Yes") ] /\
    exists w2 : world,
      load_to_staging batch_repeated_key w1 = Returned tt w2 /\
      db w2 = db w1.
Proof.
  eexists. split; [reflexivity |]. split; [reflexivity |].
  eexists. split; reflexivity.
Qed.

(** C2: the code at a staging row whose three status columns hold Yes.
    The first application stores true; the second one compares the stored
    text true with Yes and stores false, without any error.  The pipeline
    reaches this through [etl]: after a first file with customer 1,
    subscribed, and a second file that does not mention customer 1, the
    subscription of customer 1 is false. *)
Lemma convert_yes_no_to_boolean_twice_loses_Yes :
  (exists (w1 w2 : world) (r1 r2 : staging_row),
     convert_yes_no_to_boolean (world_of (staged [yes_row])) = Returned tt w1 /\
     convert_yes_no_to_boolean w1 = Returned tt w2 /\
     staging (db w1) = Some [r1] /\
     staging (db w2) = Some [r2] /\
     log w2 = [] /\
     (subscription_status yes_row, discount_applied yes_row,
      promo_code_used yes_row) = (Some "Yes", Some "Yes", Some "Yes") /\
     (subscription_status r1, discount_applied r1, promo_code_used r1) =
       (Some "true", Some "true", Some "true") /\
     (subscription_status r2, discount_applied r2, promo_code_used r2) =
       (Some "false", Some "false", Some "false")) /\
  (let w1 := world_after (etl file_customer_1) (world_of empty_database) in
   let w2 := world_after (etl file_customer_2) w1 in
   subscriptions w1 = Some [(1, Some "true")] /\
   subscriptions w2 = Some [(1, Some "false"); (2, Some "false")] /\
   log w2 = []).
Proof.
  split.
  - do 4 eexists. repeat split; reflexivity.
  - repeat split; vm_compute; reflexivity.
Qed.

(** Witness of C4, a staging table with Yes, No and NULL in
    subscription_status. *)
Lemma convert_yes_no_to_boolean_coerces_witness :
  exists (w' : world) (t' : list staging_row),
    convert_yes_no_to_boolean (world_of (staged [yes_row; row_2])) =
      Returned tt w' /\
    staging (db w') = Some t' /\
    log w' = [] /\
    Forall2
      (fun before after =>
         customer_id after = customer_id before /\
         coerced (subscription_status before) (subscription_status after) /\
         coerced (discount_applied before) (discount_applied after) /\
         coerced (promo_code_used before) (promo_code_used after))
      [yes_row; row_2] t'.
Proof.
  apply (convert_yes_no_to_boolean_coerces
           (world_of (staged [yes_row; row_2])) [yes_row; row_2]).
  reflexivity.
Defined.

Example convert_yes_no_to_boolean_run :
  exists w' : world,
    convert_yes_no_to_boolean (world_of (staged [yes_row; row_2])) =
      Returned tt w' /\
    option_map (map (fun r => (subscription_status r, discount_applied r,
                               promo_code_used r)))
               (staging (db w')) =
    Some [ (Some "true", Some "true", Some "true");
           (Some "false", Some "false", Some "false") ].
Proof. eexists. split; reflexivity. Qed.

(** Counterexample to C3 as stated: purchases has one row, its rating is
    null, and after the repair it is still null. *)
Lemma update_missing_review_ratings_keeps_null :
  purchases_unrated <> [] /\
  exists (w' : world) (r : purchase_row),
    update_missing_review_ratings (world_of (normalized purchases_unrated)) =
      Returned tt w' /\
    purchases (db w') = Some [r] /\
    u_review_rating r = None.
Proof.
  split; [discriminate |]. eexists. eexists. repeat split; reflexivity.
Qed.

(** Witness of C3, the scenario of the specification: ratings null, 4 and 2. *)
Lemma update_missing_review_ratings_fills_mean_witness :
  exists (w' : world) (rows' : list purchase_row) (avg : Q),
    update_missing_review_ratings (world_of (normalized purchases_scenario)) =
      Returned tt w' /\
    purchases (db w') = Some rows' /\
    log w' = [] /\
    (avg * inject_Z (Z.of_nat (List.length (non_null_ratings purchases_scenario)))
     == sum (non_null_ratings purchases_scenario))%Q /\
    Forall2
      (fun before after =>
         match u_review_rating before with
         | Some _ => after = before
         | None => after = set_review_rating before (Some avg)
         end)
      purchases_scenario rows' /\
    Forall (fun after => u_review_rating after <> None) rows'.
Proof.
  apply (update_missing_review_ratings_fills_mean
           (world_of (normalized purchases_scenario)) purchases_scenario).
  - reflexivity.
  - discriminate.
Defined.

Example update_missing_review_ratings_run :
  exists w' : world,
    update_missing_review_ratings (world_of (normalized purchases_scenario)) =
      Returned tt w' /\
    option_map (map u_review_rating) (purchases (db w')) =
    Some [Some 3%Q; Some 4%Q; Some 2%Q].
Proof. eexists. split; reflexivity. Qed.

(** Witness of C9, a purchases table whose only rating is null. *)
Lemma update_missing_review_ratings_all_null_witness :
  exists w' : world,
    update_missing_review_ratings (world_of (normalized purchases_unrated)) =
      Returned tt w' /\
    db w' = normalized purchases_unrated /\
    log w' = [].
Proof.
  apply (update_missing_review_ratings_all_null
           (world_of (normalized purchases_unrated)) purchases_unrated).
  - reflexivity.
  - repeat constructor.
Defined.

(** Counterexample to C7 as stated: on a store in which customers exists and
    products and purchases do not, the guarded block runs twice, sends no
    statement, and products and purchases are still missing: they are
    created zero times, not once. *)
Lemma schema_normalizer_twice_leaves_tables_missing :
  products partially_normalized = None /\
  purchases partially_normalized = None /\
  exists w1 w2 : world,
    schema_normalizer (world_of partially_normalized) = Returned tt w1 /\
    schema_normalizer w1 = Returned tt w2 /\
    products (db w2) = None /\
    purchases (db w2) = None /\
    history w2 = [].
Proof.
  split; [reflexivity |]. split; [reflexivity |].
  exists (world_of partially_normalized), (world_of partially_normalized).
  repeat split; reflexivity.
Qed.

(** Without a staging table the guarded block creates nothing either, and
    the guard does not hold the second invocation back: the four
    statements are sent, and fail, twice. *)
Example schema_normalizer_without_staging :
  exists w1 w2 : world,
    schema_normalizer (world_of empty_database) = Returned tt w1 /\
    schema_normalizer w1 = Returned tt w2 /\
    db w2 = empty_database /\
    history w2 =
      [ CreateIndex "customer_id"; CreateCustomers; CreatePurchases;
        CreateProducts;
        CreateIndex "customer_id"; CreateCustomers; CreatePurchases;
        CreateProducts ].
Proof.
  exists (after_schema_normalizer (world_of empty_database)),
    (after_schema_normalizer (after_schema_normalizer (world_of empty_database))).
  split; [apply schema_normalizer_outcome |].
  split; [apply schema_normalizer_outcome |].
  split; vm_compute; reflexivity.
Qed.

(** Witness of C7, a store with a staging table of two rows and no derived
    table. *)
Lemma schema_normalizer_twice_witness :
  exists w1 : world,
    schema_normalizer (world_of (staged [row_1; row_2])) = Returned tt w1 /\
    schema_normalizer w1 = Returned tt w1 /\
    customers (db w1) =
      Some (SELECT_DISTINCT customer_row_eq_dec
              (map customer_of [row_1; row_2])) /\
    products (db w1) =
      Some (SELECT_DISTINCT product_row_eq_dec
              (map product_of [row_1; row_2])) /\
    purchases (db w1) = Some (map purchase_of [row_1; row_2]).
Proof.
  destruct (schema_normalizer_twice (world_of (staged [row_1; row_2])))
    as (w1 & w2 & E1 & E2 & D & F).
  destruct (F [row_1; row_2] eq_refl eq_refl eq_refl eq_refl)
    as (C & P & U & W).
  subst w2. exists w1. repeat split; assumption.
Defined.

(** Witness of C10, a store in which customers exists and products,
    purchases and the index do not: after a whole run on new data and a
    further [transform_and_load] they are still missing. *)
Lemma transform_and_load_never_completes_witness :
  schema_normalizer (world_of partially_normalized) =
    Returned tt (world_of partially_normalized) /\
  exists w' : world,
    for_each [Run_etl batch_with_null_key; Run_transform_and_load] perform
      (world_of partially_normalized) = Returned tt w' /\
    customers (db w') = Some [customer_of row_1; customer_of row_2] /\
    products (db w') = None /\
    exists_table (purchases (db w')) = false /\
    indexes (db w') = [].
Proof.
  apply (transform_and_load_never_completes
           [Run_etl batch_with_null_key; Run_transform_and_load]
           (world_of partially_normalized)
           [customer_of row_1; customer_of row_2]).
  reflexivity.
Defined.

End Examples.

(** * Further properties of the code *)

(** ** Column labels: [column_mapping] against [TABLE_SCHEMA] *)

Lemma keys_dict_set {V : Type} (k k' : string) (v : V) (d : dict V) :
  In k (keys (dict_set k' v d)) <-> k = k' \/ In k (keys d).
Proof.
  unfold keys. induction d as [| [k0 v0] d IH]; simpl.
  - intuition.
  - destruct (String.eqb k' k0) eqn:E; simpl.
    + apply String.eqb_eq in E. subst k0. intuition.
    + rewrite IH. intuition.
Qed.

Lemma keys_fold_dict_set {V : Type} (k : string) (l : list (string * V))
    (d : dict V) :
  In k (keys (fold_left (fun d kv => dict_set (fst kv) (snd kv) d) l d)) <->
  In k (keys d) \/ In k (map fst l).
Proof.
  revert d. induction l as [| [k0 v0] l IH]; intros d; simpl.
  - tauto.
  - rewrite IH, keys_dict_set. simpl. intuition.
Qed.

Lemma keys_dict_of_pairs {V : Type} (k : string) (l : list (string * V)) :
  In k (keys (dict_of_pairs l)) <-> In k (map fst l).
Proof.
  unfold dict_of_pairs. rewrite keys_fold_dict_set. simpl. tauto.
Qed.

Lemma in_map_fst_combine {A B : Type} (x : A) (a : list A) (b : list B) :
  In x (map fst (combine a b)) -> In x a.
Proof.
  revert b. induction a as [| y a IH]; intros [| z b]; simpl; try tauto.
  intros [H | H]; [now left | right; now apply (IH b)].
Qed.

Lemma map_fst_combine_all {A B : Type} (a : list A) (b : list B) :
  (List.length a <= List.length b)%nat -> map fst (combine a b) = a.
Proof.
  revert b. induction a as [| y a IH]; intros [| z b] H; simpl in *;
    try reflexivity; try lia.
  f_equal. apply IH. lia.
Qed.

Lemma filter_none {A : Type} (f : A -> bool) (l : list A) :
  (forall x, In x l -> f x = false) -> filter f l = [].
Proof.
  induction l as [| x l IH]; intros F; simpl; [reflexivity |].
  rewrite (F x) by now left. apply IH. intros y Hy. apply F. now right.
Qed.

Lemma in_schema_iff (k : string) :
  existsb (String.eqb k) (map key TABLE_SCHEMA) = true <->
  In k (map key TABLE_SCHEMA).
Proof.
  rewrite existsb_exists. split.
  - intros (x & H & E). apply String.eqb_eq in E. now subst.
  - intros H. exists k. split; [assumption | apply String.eqb_refl].
Qed.

(** Every internal name of the mapping is a column of the staging table
    and is not itself an external label. *)
Lemma column_mapping_targets (c c' : string) :
  dict_get c column_mapping = Some c' ->
  In c' (map key TABLE_SCHEMA) /\ dict_get c' column_mapping = None.
Proof.
  unfold column_mapping. cbn [dict_get].
  repeat (destruct (String.eqb c _);
          [intros [= <-]; split; [now apply in_schema_iff | reflexivity] |]).
  discriminate.
Qed.

(** X1.  Applying the renaming of [load_to_staging] to a DataFrame that is
    already renamed changes nothing: no internal name is an external
    label. *)
Theorem rename_column_mapping_idempotent (df : DataFrame) :
  rename column_mapping (rename column_mapping df) = rename column_mapping df.
Proof.
  unfold rename. cbn [columns data]. f_equal. rewrite map_map.
  apply map_ext. intros c.
  destruct (dict_get c column_mapping) as [c' |] eqn:E.
  - apply column_mapping_targets in E. destruct E as [_ ->]. reflexivity.
  - now rewrite E.
Qed.

(** X2.  When every label of the DataFrame is an external label of the
    mapping (or already a column name of the staging table), no record of
    the renamed DataFrame has a key that the table lacks: no row of such
    a file fails to compile. *)
Theorem mapped_labels_leave_no_unconsumed_column (df : DataFrame) :
  Forall (fun c => dict_get c column_mapping <> None \/
                   In c (map key TABLE_SCHEMA)) (columns df) ->
  Forall (fun rec => unconsumed_column_names rec = [])
         (to_dict (rename column_mapping df)).
Proof.
  intros H. unfold to_dict. apply Forall_forall. intros rec Hrec.
  apply in_map_iff in Hrec. destruct Hrec as (cells & <- & _).
  unfold unconsumed_column_names. apply filter_none.
  intros k Hk. apply keys_dict_of_pairs, in_map_fst_combine in Hk.
  unfold rename in Hk. cbn [columns] in Hk. apply in_map_iff in Hk.
  destruct Hk as (c & <- & Hc).
  rewrite Forall_forall in H. specialize (H c Hc).
  apply negb_false_iff, in_schema_iff.
  destruct (dict_get c column_mapping) as [c' |] eqn:E.
  - now apply (column_mapping_targets c c').
  - destruct H as [H | H]; [contradiction | assumption].
Qed.

(** ** More on the loader *)

Section LoaderEdges.

Context {adapter : Adapter}.

(** X3.  A label that the mapping does not know and that is no column of
    the staging table stops the whole batch at its first row: the store is
    left as it was, with or without a staging table, and the compile error
    naming the label is logged. *)
Theorem load_to_staging_unmapped_label
    (df : DataFrame) (w : world) (c : string)
    (cells : list value) (rest : list (list value)) :
  data df = cells :: rest ->
  (List.length (columns df) <= List.length cells)%nat ->
  In c (columns df) ->
  dict_get c column_mapping = None ->
  ~ In c (map key TABLE_SCHEMA) ->
  exists (l : list string) (rec : record),
    In c l /\
    load_to_staging df w =
    Returned tt
      (mkWorld (db w)
         (log w ++ [Message (CompileError l); Traceback (CompileError l)])
         (history w ++ [Upsert rec])).
Proof.
  intros D L I M S.
  set (rec := dict_of_pairs (combine (columns (rename column_mapping df)) cells)).
  assert (U : In c (unconsumed_column_names rec)).
  { unfold unconsumed_column_names. apply filter_In. split.
    - apply keys_dict_of_pairs. rewrite map_fst_combine_all.
      + unfold rename. cbn [columns]. apply in_map_iff. exists c.
        now rewrite M.
      + unfold rename. cbn [columns]. now rewrite length_map.
    - apply negb_true_iff. destruct (existsb _ _) eqn:E; [| reflexivity].
      apply in_schema_iff in E. contradiction. }
  exists (unconsumed_column_names rec), rec. split; [assumption |].
  unfold load_to_staging, try_except, engine_connect, to_dict.
  cbn [rename data]. rewrite D. cbn [map for_each].
  fold (rename column_mapping df). fold rec.
  unfold bind at 1. unfold conn_execute, run_statement.
  destruct (unconsumed_column_names rec) as [| k l]; [contradiction |].
  unfold bind, logging_error. cbn [db log history].
  now rewrite <- app_assoc.
Qed.

(** X4.  [load_to_staging] never raises, whatever the data and the store,
    and it writes to the staging table only: it neither creates nor drops
    it, and customers, products, purchases and the indexes are as they
    were. *)
Theorem load_to_staging_returns (df : DataFrame) (w : world) :
  exists w' : world,
    load_to_staging df w = Returned tt w' /\
    exists_table (staging (db w')) = exists_table (staging (db w)) /\
    customers (db w') = customers (db w) /\
    products (db w') = products (db w) /\
    purchases (db w') = purchases (db w) /\
    indexes (db w') = indexes (db w).
Proof.
  destruct (staging (db w)) as [t |] eqn:H.
  - rewrite (load_to_staging_outcome df w t H). cbn zeta.
    eexists. split; [reflexivity |]. cbn [db set_staging staging customers
      products purchases indexes exists_table]. repeat split; reflexivity.
  - destruct (load_to_staging_no_table df w H) as (w' & E & D).
    exists w'. rewrite D, H. repeat split; reflexivity || assumption.
Qed.

Lemma ids_upsert_extends (r : staging_row) (t : list staging_row) :
  exists new : list Z, ids (upsert r t) = (ids t ++ new)%list.
Proof.
  destruct (in_dec_ids (customer_id r) t) as [H | H].
  - exists []. now rewrite (upsert_conflict _ _ H), ids_replace_by, app_nil_r.
  - exists [customer_id r]. rewrite (upsert_fresh _ _ H).
    unfold ids. now rewrite map_app.
Qed.

Lemma ids_upsert_all_extends (rows t : list staging_row) :
  exists new : list Z, ids (upsert_all rows t) = (ids t ++ new)%list.
Proof.
  revert t. induction rows as [| r rows IH]; intros t.
  - exists []. now rewrite app_nil_r.
  - unfold upsert_all in *. simpl.
    destruct (IH (upsert r t)) as (new2 & E2).
    destruct (ids_upsert_extends r t) as (new1 & E1).
    exists (new1 ++ new2)%list. now rewrite E2, E1, app_assoc.
Qed.

(** X5.  The loader never deletes: every customer_id of the staging table
    before the load is a customer_id of the table after it, and the table
    has at least as many rows as before. *)
Theorem load_to_staging_keeps_customers
    (df : DataFrame) (w : world) (t : list staging_row) :
  staging (db w) = Some t ->
  exists (w' : world) (t' : list staging_row),
    load_to_staging df w = Returned tt w' /\
    staging (db w') = Some t' /\
    (forall k, In k (ids t) -> In k (ids t')) /\
    (List.length t <= List.length t')%nat.
Proof.
  intros H. rewrite (load_to_staging_outcome df w t H). cbn zeta.
  destruct (ids_upsert_all_extends
              (accepted_prefix (to_dict (rename column_mapping df))) t)
    as (new & E).
  eexists. eexists. split; [reflexivity |].
  split; [reflexivity |]. split.
  - intros k Hk. apply ids_upsert_all. now left.
  - apply (f_equal (@List.length Z)) in E. unfold ids in E.
    rewrite length_app, !length_map in E. lia.
Qed.

(** X6.  Loading one row whose customer_id is not in staging adds that
    row after the existing rows and changes none of them; nothing is
    logged. *)
Theorem load_to_staging_inserts_new_customer
    (df : DataFrame) (w : world) (t : list staging_row)
    (rec : record) (r : staging_row) :
  staging (db w) = Some t ->
  to_dict (rename column_mapping df) = [rec] ->
  proposed_row rec = inr r ->
  ~ In (customer_id r) (ids t) ->
  load_to_staging df w =
  Returned tt
    (mkWorld (set_staging (db w) (t ++ [r])) (log w)
       (history w ++ [Upsert rec])).
Proof.
  intros H E P F. rewrite (load_to_staging_outcome df w t H). cbn zeta.
  rewrite E. cbn [accepted_prefix first_failure attempted]. rewrite P.
  cbn [map]. unfold upsert_all. cbn [fold_left].
  now rewrite (upsert_fresh r t F), app_nil_r.
Qed.

End LoaderEdges.

(** ** More on the schema and the type normalizer *)

Section TransformEdges.

Context {adapter : Adapter}.

Lemma Forall2_map_same {A : Type} (R : A -> A -> Prop) (f : A -> A)
    (l : list A) :
  (forall x, R x (f x)) -> Forall2 R l (map f l).
Proof.
  intros H. induction l as [| x l IH]; simpl; constructor; auto.
Qed.

(** X8.  [convert_yes_no_to_boolean] rewrites the three status columns and
    nothing else: on an existing staging table every row keeps its place
    and its sixteen other columns, the key among them, and the derived
    tables and the indexes are as they were. *)
Theorem convert_yes_no_to_boolean_frame (w : world) (t : list staging_row) :
  staging (db w) = Some t ->
  exists (w' : world) (t' : list staging_row),
    convert_yes_no_to_boolean w = Returned tt w' /\
    staging (db w') = Some t' /\
    Forall2 (fun before after => other_columns after = other_columns before)
            t t' /\
    customers (db w') = customers (db w) /\
    products (db w') = products (db w) /\
    purchases (db w') = purchases (db w) /\
    indexes (db w') = indexes (db w).
Proof.
  intros H. rewrite (convert_yes_no_to_boolean_outcome w t H).
  eexists. eexists. split; [reflexivity |]. cbn.
  split; [reflexivity |]. split; [| repeat split; reflexivity].
  apply Forall2_map_same. reflexivity.
Qed.

Lemma yes_no_to_boolean_thrice (r : staging_row) :
  yes_no_to_boolean (yes_no_to_boolean (yes_no_to_boolean r)) =
  yes_no_to_boolean (yes_no_to_boolean r).
Proof.
  unfold yes_no_to_boolean at 1 2. cbn [customer_id category age gender
    location color size season item_purchased purchase_amount review_rating
    subscription_status payment_method shipping_type discount_applied
    promo_code_used previous_purchase preferred_payment_method
    frequency_of_purchase].
  unfold yes_no_to_boolean. cbn [customer_id category age gender
    location color size season item_purchased purchase_amount review_rating
    subscription_status payment_method shipping_type discount_applied
    promo_code_used previous_purchase preferred_payment_method
    frequency_of_purchase].
  unfold case_when_Yes.
  destruct (is_Yes (subscription_status r)), (is_Yes (discount_applied r)),
    (is_Yes (promo_code_used r)); reflexivity.
Qed.

(** X9.  Whatever the status columns hold, two applications of
    [convert_yes_no_to_boolean] leave false in all three columns of every
    row, without an error being logged; from then on a further application
    changes nothing. *)
Theorem convert_yes_no_to_boolean_twice_all_false
    (w : world) (t : list staging_row) :
  staging (db w) = Some t ->
  exists (w1 w2 w3 : world) (t2 : list staging_row),
    convert_yes_no_to_boolean w = Returned tt w1 /\
    convert_yes_no_to_boolean w1 = Returned tt w2 /\
    convert_yes_no_to_boolean w2 = Returned tt w3 /\
    staging (db w2) = Some t2 /\
    Forall (fun r => statuses r = (Some "false", Some "false", Some "false"))
           t2 /\
    log w2 = log w /\
    db w3 = db w2.
Proof.
  intros H. rewrite (convert_yes_no_to_boolean_outcome w t H).
  eexists. eexists. eexists. eexists. split; [reflexivity |].
  erewrite convert_yes_no_to_boolean_outcome by reflexivity.
  split; [reflexivity |].
  erewrite convert_yes_no_to_boolean_outcome by reflexivity.
  split; [reflexivity |]. cbn [db log staging set_staging].
  split; [reflexivity |]. split; [| split; [reflexivity |]].
  - rewrite map_map. apply Forall_forall. intros x Hx.
    apply in_map_iff in Hx. destruct Hx as (r & <- & _).
    destruct (yes_no_to_boolean_twice r) as (A & B & C).
    unfold statuses. now rewrite A, B, C.
  - unfold set_staging. cbn [indexes customers products purchases].
    do 2 f_equal. rewrite !map_map. apply map_ext.
    intros r. apply yes_no_to_boolean_thrice.
Qed.

(** X10.  Before the staging table exists [transform_and_load] changes
    nothing in a store that has neither customers nor purchases: each of
    its six statements fails, and each failure is logged with its two
    lines. *)
Theorem transform_and_load_without_staging (w : world) :
  staging (db w) = None ->
  customers (db w) = None ->
  purchases (db w) = None ->
  exists w' : world,
    transform_and_load w = Returned tt w' /\
    db w' = db w /\
    List.length (log w') = (List.length (log w) + 12)%nat.
Proof.
  intros S C U. eexists. split; [apply transform_and_load_outcome |].
  destruct w as [[s i c p u] l h]. cbn in S, C, U. subst s c u.
  unfold after_schema_normalizer, after_execute_sql.
  cbn [db log history run_statement from_staging andThen staging customers
       products purchases exists_table].
  destruct p; cbn [db log history run_statement from_staging andThen staging
       customers products purchases exists_table];
    (split; [reflexivity |]); rewrite !length_app; cbn [List.length]; lia.
Qed.

End TransformEdges.

(** ** More on the derived tables *)

Section DerivedTables.

Context {adapter : Adapter}.

Lemma create_customers_table_outcome (w : world) (t : list staging_row) :
  staging (db w) = Some t ->
  customers (db w) = None ->
  create_customers_table w =
  Returned tt
    (mkWorld (set_customers (db w)
                (SELECT_DISTINCT customer_row_eq_dec (map customer_of t)))
       (log w) (history w ++ [CreateCustomers])).
Proof.
  intros S C. unfold create_customers_table. rewrite execute_sql_outcome.
  unfold after_execute_sql, run_statement, from_staging. now rewrite C, S.
Qed.

Lemma create_products_table_outcome (w : world) (t : list staging_row) :
  staging (db w) = Some t ->
  products (db w) = None ->
  create_products_table w =
  Returned tt
    (mkWorld (set_products (db w)
                (SELECT_DISTINCT product_row_eq_dec (map product_of t)))
       (log w) (history w ++ [CreateProducts])).
Proof.
  intros S P. unfold create_products_table. rewrite execute_sql_outcome.
  unfold after_execute_sql, run_statement, from_staging. now rewrite P, S.
Qed.

(** X11.  The staging table has one row per customer_id, so the DISTINCT
    of [create_customers_table] removes nothing: customers gets as many
    rows as staging has, no customer_id twice, and a row is in customers
    exactly when it is the (customer_id, age, gender, subscription_status)
    of a staging row. *)
Theorem create_customers_table_one_row_per_customer
    (w : world) (t : list staging_row) :
  staging (db w) = Some t ->
  customers (db w) = None ->
  NoDup (ids t) ->
  exists (w' : world) (c : list customer_row),
    create_customers_table w = Returned tt w' /\
    customers (db w') = Some c /\
    List.length c = List.length t /\
    NoDup (map c_customer_id c) /\
    (forall x, In x c <-> exists r, In r t /\ x = customer_of r) /\
    log w' = log w.
Proof.
  intros S C N. rewrite (create_customers_table_outcome w t S C).
  assert (E : map c_customer_id (map customer_of t) = ids t).
  { unfold ids. rewrite map_map. apply map_ext. reflexivity. }
  assert (D : SELECT_DISTINCT customer_row_eq_dec (map customer_of t) =
              map customer_of t).
  { unfold SELECT_DISTINCT. apply nodup_fixed_point.
    apply (NoDup_map_inv c_customer_id). now rewrite E. }
  eexists. eexists. split; [reflexivity |].
  cbn [db log customers set_customers]. rewrite D.
  split; [reflexivity |]. split; [apply length_map |].
  split; [now rewrite E |]. split; [| reflexivity].
  intros x. rewrite in_map_iff.
  split; intros (r & A & B); exists r; auto.
Qed.

(** X12.  [create_products_table] leaves each product of staging exactly
    once: products has no two equal rows, a row is in products exactly when
    it is the (item_purchased, category, size, color, season) of some
    staging row, and products has at most as many rows as staging. *)
Theorem create_products_table_distinct (w : world) (t : list staging_row) :
  staging (db w) = Some t ->
  products (db w) = None ->
  exists (w' : world) (p : list product_row),
    create_products_table w = Returned tt w' /\
    products (db w') = Some p /\
    NoDup p /\
    (forall x, In x p <-> exists r, In r t /\ x = product_of r) /\
    (List.length p <= List.length t)%nat.
Proof.
  intros S P. rewrite (create_products_table_outcome w t S P).
  eexists. eexists. split; [reflexivity |].
  cbn [db products set_products]. split; [reflexivity |].
  unfold SELECT_DISTINCT. split; [apply NoDup_nodup |]. split.
  - intros x. rewrite nodup_In, in_map_iff.
    split; intros (r & A & B); exists r; auto.
  - rewrite <- (length_map product_of t).
    apply NoDup_incl_length; [apply NoDup_nodup |].
    intros x Hx. now apply nodup_In in Hx.
Qed.

(** X13.  A derived table that exists is never overwritten: called on a
    store that has the table, each of [create_customers_table],
    [create_products_table] and [create_purchases_table] leaves the store
    as it was and logs one exception, the duplicate table when the staging
    table exists and the missing staging table when it does not. *)
Theorem create_table_keeps_existing
    (create : py unit) (table_name : string) (sql : statement) (w : world) :
  In (create, table_name, sql)
     [ (create_customers_table, "customers", CreateCustomers);
       (create_products_table, "products", CreateProducts);
       (create_purchases_table, "purchases", CreatePurchases) ] ->
  table_exists (db w) table_name = true ->
  let e := if exists_table (staging (db w))
           then DuplicateTable table_name
           else UndefinedTable STAGING_TABLE_NAME in
  create w =
  Returned tt
    (mkWorld (db w) (log w ++ [Message e; Traceback e]) (history w ++ [sql])).
Proof.
  intros I E.
  destruct I as [[= <- <- <-] | [[= <- <- <-] | [[= <- <- <-] | []]]];
    [ change (table_exists (db w) "customers")
        with (exists_table (customers (db w))) in E;
      unfold create_customers_table
    | change (table_exists (db w) "products")
        with (exists_table (products (db w))) in E;
      unfold create_products_table
    | change (table_exists (db w) "purchases")
        with (exists_table (purchases (db w))) in E;
      unfold create_purchases_table ];
    rewrite execute_sql_outcome;
    unfold after_execute_sql, run_statement, from_staging, andThen;
    destruct (staging (db w)); cbn [exists_table]; try reflexivity.
  - destruct (customers (db w)); [reflexivity | discriminate].
  - destruct (products (db w)); [reflexivity | discriminate].
  - destruct (purchases (db w)); [reflexivity | discriminate].
Qed.

(** X14.  [create_index] on a column of an existing staging table adds the
    index idx_<column> when the store has none of that name; called again
    it fails, leaves the store as it is and logs the duplicate name. *)
Theorem create_index_twice
    (w : world) (t : list staging_row) (column_name : string) :
  staging (db w) = Some t ->
  In column_name (map key TABLE_SCHEMA) ->
  ~ In (index_name column_name) (indexes (db w)) ->
  exists w1 w2 : world,
    create_index column_name w = Returned tt w1 /\
    indexes (db w1) = (indexes (db w) ++ [index_name column_name])%list /\
    log w1 = log w /\
    create_index column_name w1 = Returned tt w2 /\
    db w2 = db w1 /\
    log w2 =
      (log w1 ++ [Message (DuplicateTable (index_name column_name));
                  Traceback (DuplicateTable (index_name column_name))])%list.
Proof.
  intros S C I. unfold create_index.
  assert (E1 : existsb (String.eqb column_name) (map key TABLE_SCHEMA) = true)
    by now apply in_schema_iff.
  assert (E2 : existsb (String.eqb (index_name column_name)) (indexes (db w))
               = false).
  { destruct (existsb _ (indexes (db w))) eqn:E; [| reflexivity].
    apply existsb_exists in E. destruct E as (x & Hx & Ex).
    apply String.eqb_eq in Ex. subst x. contradiction. }
  assert (E3 : existsb (String.eqb (index_name column_name))
                 (indexes (db w) ++ [index_name column_name]) = true).
  { apply existsb_exists. exists (index_name column_name).
    split; [apply in_or_app; right; now left | apply String.eqb_refl]. }
  set (sql := CreateIndex column_name).
  set (w1 := mkWorld
               (set_indexes (db w) (indexes (db w) ++ [index_name column_name]))
               (log w) (history w ++ [sql])).
  assert (R1 : execute_sql sql w = Returned tt w1).
  { rewrite execute_sql_outcome.
    unfold after_execute_sql, sql, run_statement, from_staging, andThen.
    now rewrite S, E1, E2. }
  assert (R2 : execute_sql sql w1 =
               Returned tt
                 (mkWorld (db w1)
                    (log w1 ++ [Message (DuplicateTable (index_name column_name));
                                Traceback (DuplicateTable (index_name column_name))])
                    (history w1 ++ [sql]))).
  { rewrite execute_sql_outcome.
    unfold after_execute_sql, sql, run_statement, from_staging, andThen.
    change (staging (db w1)) with (staging (db w)).
    change (indexes (db w1))
      with (indexes (db w) ++ [index_name column_name])%list.
    now rewrite S, E1, E3. }
  eexists. eexists. split; [exact R1 |].
  split; [reflexivity |]. split; [reflexivity |].
  split; [exact R2 |]. split; reflexivity.
Qed.

End DerivedTables.

(** ** More on the rating repair *)

Section RepairEdges.

Context {adapter : Adapter}.

Lemma fill_rating_rated (avg : option Q) (rows : list purchase_row) :
  Forall (fun r => u_review_rating r <> None) rows ->
  map (fill_rating avg) rows = rows.
Proof.
  intros F. induction F as [| r rows Hr F IH]; simpl; [reflexivity |].
  rewrite IH. f_equal. unfold fill_rating.
  destruct (u_review_rating r); [reflexivity | contradiction].
Qed.

Lemma fill_rating_unrated (rows : list purchase_row) :
  Forall (fun r => u_review_rating r = None) rows ->
  map (fill_rating None) rows = rows.
Proof.
  intros F. induction F as [| r rows Hr F IH]; simpl; [reflexivity |].
  rewrite IH. f_equal. unfold fill_rating, set_review_rating.
  rewrite Hr. destruct r; simpl in *. now rewrite Hr.
Qed.

Lemma fill_rating_Some_rated (a : Q) (rows : list purchase_row) :
  Forall (fun r => u_review_rating r <> None) (map (fill_rating (Some a)) rows).
Proof.
  apply Forall_forall. intros x Hx. apply in_map_iff in Hx.
  destruct Hx as (r & <- & _). unfold fill_rating.
  destruct (u_review_rating r) eqn:E; simpl; congruence.
Qed.

Lemma fill_missing_ratings_unrated (rows : list purchase_row) :
  non_null_ratings rows = [] -> fill_missing_ratings rows = rows.
Proof.
  intros E. unfold fill_missing_ratings. rewrite E. cbn [AVG].
  now apply fill_rating_unrated, non_null_ratings_nil.
Qed.

Lemma fill_missing_ratings_idempotent (rows : list purchase_row) :
  fill_missing_ratings (fill_missing_ratings rows) = fill_missing_ratings rows.
Proof.
  destruct (non_null_ratings rows) as [| q l] eqn:E.
  - now rewrite !(fill_missing_ratings_unrated rows E).
  - unfold fill_missing_ratings at 2 3. rewrite E. cbn [AVG].
    unfold fill_missing_ratings.
    apply fill_rating_rated, fill_rating_Some_rated.
Qed.

Lemma database_ext (d d' : database) :
  staging d' = staging d ->
  indexes d' = indexes d ->
  customers d' = customers d ->
  products d' = products d ->
  purchases d' = purchases d ->
  d' = d.
Proof. destruct d, d'; simpl; intros; subst; reflexivity. Qed.

Lemma exec_UpdateMissingRatings (d : database) :
  staging (exec UpdateMissingRatings d) = staging d /\
  indexes (exec UpdateMissingRatings d) = indexes d /\
  customers (exec UpdateMissingRatings d) = customers d /\
  products (exec UpdateMissingRatings d) = products d /\
  purchases (exec UpdateMissingRatings d) =
    option_map fill_missing_ratings (purchases d).
Proof.
  unfold exec, run_statement. destruct (purchases d) eqn:U; simpl; auto.
Qed.

Lemma exec_UpdateYesNo (d : database) :
  staging (exec UpdateYesNo d) = option_map (map yes_no_to_boolean) (staging d) /\
  indexes (exec UpdateYesNo d) = indexes d /\
  customers (exec UpdateYesNo d) = customers d /\
  products (exec UpdateYesNo d) = products d /\
  purchases (exec UpdateYesNo d) = purchases d.
Proof.
  unfold exec, run_statement, from_staging. destruct (staging d) eqn:S; simpl; auto.
Qed.

Lemma update_missing_review_ratings_db (w : world) :
  exists w' : world,
    update_missing_review_ratings w = Returned tt w' /\
    db w' = exec UpdateMissingRatings (db w).
Proof.
  unfold update_missing_review_ratings. rewrite execute_sql_outcome.
  eexists. split; [reflexivity | apply db_after_execute_sql].
Qed.

(** X15.  [update_missing_review_ratings] can be re-applied on every run:
    whatever the store, a second application leaves it exactly as the
    first did (no rating is null any more, or all are, or purchases does
    not exist). *)
Theorem update_missing_review_ratings_idempotent (w : world) :
  exists w1 w2 : world,
    update_missing_review_ratings w = Returned tt w1 /\
    update_missing_review_ratings w1 = Returned tt w2 /\
    db w2 = db w1.
Proof.
  destruct (update_missing_review_ratings_db w) as (w1 & R1 & D1).
  destruct (update_missing_review_ratings_db w1) as (w2 & R2 & D2).
  exists w1, w2. split; [assumption |]. split; [assumption |].
  rewrite D2.
  destruct (exec_UpdateMissingRatings (db w1)) as (A1 & A2 & A3 & A4 & A5).
  apply database_ext; try assumption.
  rewrite A5, D1.
  destruct (exec_UpdateMissingRatings (db w)) as (_ & _ & _ & _ & ->).
  destruct (purchases (db w)); simpl; [| reflexivity].
  now rewrite fill_missing_ratings_idempotent.
Qed.

Lemma map_purchase_facts_fill (avg : option Q) (rows : list purchase_row) :
  map purchase_facts (map (fill_rating avg) rows) = map purchase_facts rows.
Proof.
  rewrite map_map. apply map_ext. intros r. unfold fill_rating.
  now destruct (u_review_rating r).
Qed.

(** X16.  [update_missing_review_ratings] writes review_rating of
    purchases and nothing else: no purchase is added or removed, the
    purchases are those there were as to customer_id, item_purchased,
    purchase_amount and location, and staging, customers, products and the
    indexes are as they were. *)
Theorem update_missing_review_ratings_frame (w : world) :
  exists w' : world,
    update_missing_review_ratings w = Returned tt w' /\
    same_rows (option_map (map purchase_facts) (purchases (db w')))
              (option_map (map purchase_facts) (purchases (db w))) /\
    staging (db w') = staging (db w) /\
    customers (db w') = customers (db w) /\
    products (db w') = products (db w) /\
    indexes (db w') = indexes (db w).
Proof.
  destruct (update_missing_review_ratings_db w) as (w' & R & D).
  exists w'. split; [assumption |]. rewrite D.
  destruct (exec_UpdateMissingRatings (db w)) as (A1 & A2 & A3 & A4 & A5).
  rewrite A1, A2, A3, A4, A5. split; [| auto].
  apply same_rows_eq.
  destruct (purchases (db w)); simpl; [| reflexivity].
  unfold fill_missing_ratings. now rewrite map_purchase_facts_fill.
Qed.

Lemma inject_Z_S (n : nat) :
  (inject_Z (Z.of_nat (S n)) == inject_Z (Z.of_nat n) + 1)%Q.
Proof. rewrite Nat2Z.inj_succ, <- Z.add_1_r, inject_Z_plus. reflexivity. Qed.

(** The ratings after a fill by [a]: each null rating counts as [a]. *)
Lemma sum_filled (a : Q) (rows : list purchase_row) :
  (sum (non_null_ratings (map (fill_rating (Some a)) rows))
   + inject_Z (Z.of_nat (List.length (non_null_ratings rows))) * a
   == sum (non_null_ratings rows)
      + inject_Z (Z.of_nat (List.length rows)) * a)%Q.
Proof.
  induction rows as [| r rows IH].
  - simpl. reflexivity.
  - cbn [map non_null_ratings]. unfold fill_rating at 1.
    destruct (u_review_rating r) as [q |] eqn:E.
    + rewrite E. cbn [sum fold_right List.length]. fold (sum (non_null_ratings rows)).
      fold (sum (non_null_ratings (map (fill_rating (Some a)) rows))).
      rewrite !inject_Z_S.
      rewrite !Qmult_plus_distr_l, <- !Qplus_assoc.
      apply Qplus_comp; [reflexivity |].
      rewrite !Qplus_assoc. apply Qplus_comp; [exact IH | reflexivity].
    + cbn [set_review_rating u_review_rating sum fold_right List.length].
      fold (sum (non_null_ratings (map (fill_rating (Some a)) rows))).
      rewrite inject_Z_S, Qmult_plus_distr_l, Qmult_1_l.
      rewrite <- Qplus_assoc, (Qplus_comm a), IH.
      rewrite <- !Qplus_assoc. reflexivity.
Qed.

Lemma length_filled (a : Q) (rows : list purchase_row) :
  List.length (non_null_ratings (map (fill_rating (Some a)) rows)) =
  List.length rows.
Proof.
  induction rows as [| r rows IH]; [reflexivity |].
  cbn [map non_null_ratings]. unfold fill_rating at 1.
  destruct (u_review_rating r) eqn:E.
  - rewrite E. simpl. now rewrite IH.
  - simpl. now rewrite IH.
Qed.

(** X17.  The repair does not move the average: when some rating is not
    null, the average of the ratings of purchases after
    [update_missing_review_ratings] is the average of the ratings that
    were not null before. *)
Theorem update_missing_review_ratings_keeps_average
    (w : world) (rows : list purchase_row) :
  purchases (db w) = Some rows ->
  non_null_ratings rows <> [] ->
  exists (w' : world) (rows' : list purchase_row) (a a' : Q),
    update_missing_review_ratings w = Returned tt w' /\
    purchases (db w') = Some rows' /\
    AVG (non_null_ratings rows) = Some a /\
    AVG (non_null_ratings rows') = Some a' /\
    (a' == a)%Q.
Proof.
  intros H N. rewrite (update_missing_review_ratings_outcome w rows H).
  destruct (AVG_is_mean _ N) as (a & A & M).
  unfold fill_missing_ratings. rewrite A.
  set (rows' := map (fill_rating (Some a)) rows).
  assert (N' : non_null_ratings rows' <> []).
  { intros E. apply (f_equal (@List.length Q)) in E.
    unfold rows' in E. rewrite length_filled in E.
    destruct rows; [now apply N | discriminate]. }
  destruct (AVG_is_mean _ N') as (a' & A' & M').
  eexists. exists rows', a, a'. split; [reflexivity |].
  cbn [db purchases set_purchases]. repeat (split; [reflexivity || assumption |]).
  unfold rows' in M'. rewrite length_filled in M'.
  pose proof (sum_filled a rows) as S. rewrite <- M' in S.
  rewrite <- M in S.
  set (m := inject_Z (Z.of_nat (List.length rows))) in *.
  set (n := inject_Z (Z.of_nat (List.length (non_null_ratings rows)))) in *.
  assert (Hm : ~ (m == 0)%Q).
  { unfold m, Qeq. simpl. destruct rows; [now elim N | simpl; lia]. }
  assert (E : (a' * m == a * m)%Q).
  { apply (Qplus_inj_r _ _ (n * a)). rewrite S. ring. }
  now apply Qmult_inj_r in E.
Qed.

End RepairEdges.

(** ** Whole runs *)

Section Runs.

Context {adapter : Adapter}.

Lemma db_schema_normalizer_eq (w : world) :
  db (after_schema_normalizer w) = db_schema_normalizer (db w).
Proof. apply db_after_schema_normalizer. Qed.

Lemma transform_and_load_db (w : world) :
  exists w' : world,
    transform_and_load w = Returned tt w' /\
    db w' =
      exec UpdateMissingRatings
        (db_schema_normalizer (exec UpdateYesNo (db w))).
Proof.
  eexists. split; [apply transform_and_load_outcome |].
  now rewrite db_after_execute_sql, db_schema_normalizer_eq, db_after_execute_sql.
Qed.

Lemma etl_db (data : DataFrame) (w : world) :
  exists w' : world,
    etl data w = Returned tt w' /\
    db w' = db_etl data (db w).
Proof.
  unfold etl, bind, staging_database_schema, db_etl.
  destruct (staging (db w)) as [t |] eqn:S.
  - rewrite (load_to_staging_outcome data w t S). cbn zeta.
    match goal with
    | |- context [transform_and_load ?w2] =>
        destruct (transform_and_load_db w2) as (w3 & -> & D)
    end.
    exists w3. split; [reflexivity |]. exact D.
  - erewrite load_to_staging_outcome by reflexivity. cbn zeta.
    match goal with
    | |- context [transform_and_load ?w2] =>
        destruct (transform_and_load_db w2) as (w3 & -> & D)
    end.
    exists w3. split; [reflexivity |]. exact D.
Qed.

Lemma db_schema_normalizer_staging (d : database) :
  staging (db_schema_normalizer d) = staging d.
Proof.
  unfold db_schema_normalizer. destruct (exists_table (customers d));
    [reflexivity |].
  destruct (exec_CreateProducts
              (exec CreatePurchases
                 (exec CreateCustomers (exec (CreateIndex "customer_id") d))))
    as (-> & _).
  destruct (exec_CreatePurchases
              (exec CreateCustomers (exec (CreateIndex "customer_id") d)))
    as (-> & _).
  destruct (exec_CreateCustomers (exec (CreateIndex "customer_id") d))
    as (-> & _).
  now destruct (exec_CreateIndex "customer_id" d) as (-> & _).
Qed.

Lemma db_schema_normalizer_customers (d : database) (t : list staging_row) :
  staging d = Some t ->
  exists_table (customers (db_schema_normalizer d)) = true.
Proof.
  intros S. destruct (customers d) as [c |] eqn:C.
  - unfold db_schema_normalizer. now rewrite C; cbn; rewrite C.
  - pose proof (db_after_schema_normalizer_staged (mkWorld d [] []) t S C)
      as (E & _).
    rewrite db_schema_normalizer_eq in E. cbn [db] in E. now rewrite E.
Qed.

Lemma db_schema_normalizer_guarded (d : database) :
  exists_table (customers d) = true -> db_schema_normalizer d = d.
Proof. unfold db_schema_normalizer. now intros ->. Qed.

Lemma customer_id_yes_no_to_boolean (t : list staging_row) :
  ids (map yes_no_to_boolean t) = ids t.
Proof. unfold ids. rewrite map_map. now apply map_ext. Qed.

(** Loading a batch again over its own converted rows restores the rows
    as they are in the file. *)
Lemma upsert_all_over_converted (rows : list staging_row) :
  upsert_all rows (map yes_no_to_boolean (upsert_all rows [])) =
  upsert_all rows [].
Proof.
  rewrite upsert_all_present.
  - rewrite map_map. rewrite <- (map_id (upsert_all rows [])) at 2.
    apply map_ext_in. intros x Hx. unfold replace_by_latest.
    change (customer_id (yes_no_to_boolean x)) with (customer_id x).
    apply in_upsert_all in Hx.
    destruct (latest (customer_id x) rows); [congruence | contradiction].
  - intros k Hk. rewrite customer_id_yes_no_to_boolean.
    apply ids_upsert_all. now right.
Qed.

(** X18.  For a file in which every row has a customer_id and no cell is
    missing, on a store whose staging table is missing or empty: a second
    [etl] run on the same data leaves the store with the tables, rows and
    indexes the first run left. *)
Theorem etl_twice_same_data (data : DataFrame) (w : world) :
  Forall (fun rec => complete_record rec = true)
         (to_dict (rename column_mapping data)) ->
  staging (db w) = None \/ staging (db w) = Some [] ->
  exists w1 w2 : world,
    etl data w = Returned tt w1 /\
    etl data w1 = Returned tt w2 /\
    same_store (db w2) (db w1).
Proof.
  intros _ H.
  destruct (etl_db data w) as (w1 & R1 & D1).
  destruct (etl_db data w1) as (w2 & R2 & D2).
  exists w1, w2. split; [assumption |]. split; [assumption |].
  set (P := accepted_prefix (to_dict (rename column_mapping data))) in *.
  set (T := upsert_all P []).
  assert (E0 : db w1 =
               exec UpdateMissingRatings
                 (db_schema_normalizer
                    (exec UpdateYesNo (set_staging (db w) T)))).
  { rewrite D1. unfold db_etl. fold P.
    destruct H as [-> | ->]; reflexivity. }
  set (dA := exec UpdateYesNo (set_staging (db w) T)) in E0.
  set (dB := db_schema_normalizer dA) in E0.
  destruct (exec_UpdateYesNo (set_staging (db w) T))
    as (A1 & A2 & A3 & A4 & A5). fold dA in A1, A2, A3, A4, A5.
  cbn [staging set_staging option_map] in A1.
  pose proof (db_schema_normalizer_staging dA) as B1. fold dB in B1.
  pose proof (db_schema_normalizer_customers dA _ A1) as B2. fold dB in B2.
  destruct (exec_UpdateMissingRatings dB) as (C1 & C2 & C3 & C4 & C5).
  rewrite <- E0 in C1, C2, C3, C4, C5.
  assert (S1 : staging (db w1) = Some (map yes_no_to_boolean T))
    by now rewrite C1, B1.
  (* the second run *)
  assert (E : db w2 = db w1); [| rewrite E; apply same_store_refl].
  rewrite D2. unfold db_etl. fold P. rewrite S1.
  unfold T at 1. rewrite upsert_all_over_converted. fold T.
  assert (EA : exec UpdateYesNo (set_staging (db w1) T) = db w1).
  { destruct (exec_UpdateYesNo (set_staging (db w1) T))
      as (Y1 & Y2 & Y3 & Y4 & Y5).
    apply database_ext; [now rewrite Y1, S1 | | | |]; assumption. }
  rewrite EA.
  rewrite db_schema_normalizer_guarded by now rewrite C3.
  destruct (exec_UpdateMissingRatings (db w1)) as (Z1 & Z2 & Z3 & Z4 & Z5).
  apply database_ext; try assumption.
  rewrite Z5, C5. destruct (purchases dB); simpl; [| reflexivity].
  now rewrite fill_missing_ratings_idempotent.
Qed.

Lemma after_execute_sql_ok (sql : statement) (w : world) (d : database) :
  run_statement sql (db w) = inr d ->
  after_execute_sql sql w = mkWorld d (log w) (history w ++ [sql]).
Proof. unfold after_execute_sql. now intros ->. Qed.

(** One successful statement of a sequence, innermost first. *)
Ltac step_sql d :=
  match goal with
  | |- context [after_execute_sql ?sql (mkWorld ?d0 ?l0 ?h0)] =>
      rewrite (after_execute_sql_ok sql (mkWorld d0 l0 h0) d eq_refl);
      cbn [db log history]
  end.

(** What [transform_and_load] leaves of a store that holds the staging
    table and nothing else. *)
Lemma transform_and_load_fresh (t : list staging_row) (l : list log_line)
    (h : list statement) :
  let S := map yes_no_to_boolean t in
  exists w' : world,
    transform_and_load (mkWorld (mkDatabase (Some t) [] None None None) l h) =
      Returned tt w' /\
    db w' =
      mkDatabase (Some S) ["idx_customer_id"]
        (Some (SELECT_DISTINCT customer_row_eq_dec (map customer_of S)))
        (Some (SELECT_DISTINCT product_row_eq_dec (map product_of S)))
        (Some (fill_missing_ratings (map purchase_of S))) /\
    log w' = l.
Proof.
  intros S. eexists. split; [apply transform_and_load_outcome |].
  set (d0 := mkDatabase (Some t) [] None None None).
  set (d1 := mkDatabase (Some S) [] None None None).
  set (d2 := mkDatabase (Some S) ["idx_customer_id"] None None None).
  set (cs := SELECT_DISTINCT customer_row_eq_dec (map customer_of S)).
  set (ps := SELECT_DISTINCT product_row_eq_dec (map product_of S)).
  set (d3 := mkDatabase (Some S) ["idx_customer_id"] (Some cs) None None).
  set (d4 := mkDatabase (Some S) ["idx_customer_id"] (Some cs) None
               (Some (map purchase_of S))).
  set (d5 := mkDatabase (Some S) ["idx_customer_id"] (Some cs) (Some ps)
               (Some (map purchase_of S))).
  rewrite (after_execute_sql_ok UpdateYesNo (mkWorld d0 l h) d1 eq_refl).
  unfold after_schema_normalizer.
  cbn [db log history d1 customers exists_table].
  step_sql d2. step_sql d3. step_sql d4. step_sql d5.
  step_sql (set_purchases d5 (fill_missing_ratings (map purchase_of S))).
  cbn [db log]. split; reflexivity.
Qed.

(** X19.  The first [etl] run on a store without any table, for a file in
    which every row has a customer_id and no cell is missing.  With S the
    rows before the first failing row, last value per customer_id, their
    status columns converted: staging has the rows of S, one per
    customer_id; the index on customer_id exists; customers has one row
    per row of S; products has the products of S, each once; purchases has
    one row per row of S, with the ratings repaired; and nothing is logged
    but the failure of the loader, if any. *)
Theorem etl_first_run (data : DataFrame) (w : world) :
  db w = empty_database ->
  let recs := to_dict (rename column_mapping data) in
  Forall (fun rec => complete_record rec = true) recs ->
  let S := map yes_no_to_boolean (upsert_all (accepted_prefix recs) []) in
  exists w' : world,
    etl data w = Returned tt w' /\
    same_rows (staging (db w')) (Some S) /\
    NoDup (ids S) /\
    Permutation (indexes (db w')) ["idx_customer_id"] /\
    same_rows (customers (db w')) (Some (map customer_of S)) /\
    (exists p : list product_row,
       products (db w') = Some p /\
       NoDup p /\
       (forall x, In x p <-> exists r, In r S /\ x = product_of r)) /\
    same_rows (purchases (db w'))
              (Some (fill_missing_ratings (map purchase_of S))) /\
    log w' =
      (log w ++
       match first_failure recs with
       | None => []
       | Some e => [Message e; Traceback e]
       end)%list.
Proof.
  intros E recs _ S. destruct w as [d l h]. cbn [db] in E. subst d.
  unfold etl, bind, staging_database_schema.
  cbn [db log history staging empty_database set_staging indexes customers
       products purchases].
  erewrite load_to_staging_outcome by reflexivity. cbn zeta. fold recs.
  cbn [db log history staging set_staging indexes customers products
       purchases].
  change (set_staging (set_staging empty_database [])
            (upsert_all (accepted_prefix recs) []))
    with (mkDatabase (Some (upsert_all (accepted_prefix recs) [])) []
            None None None).
  match goal with
  | |- context [transform_and_load (mkWorld _ ?l2 ?h2)] =>
      destruct (transform_and_load_fresh
                  (upsert_all (accepted_prefix recs) []) l2 h2)
        as (w' & -> & D & L)
  end.
  fold S in D. exists w'. split; [reflexivity |]. rewrite D, L.
  cbn [staging indexes customers products purchases].
  assert (N : NoDup (ids S)).
  { unfold S. rewrite customer_id_yes_no_to_boolean.
    apply NoDup_ids_upsert_all. constructor. }
  assert (C : SELECT_DISTINCT customer_row_eq_dec (map customer_of S) =
              map customer_of S).
  { unfold SELECT_DISTINCT. apply nodup_fixed_point.
    apply (NoDup_map_inv c_customer_id).
    replace (map c_customer_id (map customer_of S)) with (ids S);
      [assumption |].
    unfold ids. rewrite map_map. now apply map_ext. }
  rewrite C.
  split; [apply same_rows_refl |]. split; [assumption |].
  split; [apply Permutation_refl |]. split; [apply same_rows_refl |].
  split; [| split; [apply same_rows_refl | reflexivity]].
  eexists. split; [reflexivity |]. unfold SELECT_DISTINCT.
  split; [apply NoDup_nodup |].
  intros x. rewrite nodup_In, in_map_iff.
  split; intros (r & A & B); exists r; auto.
Qed.

Lemma option_map_purchase_facts_fill (u : option (list purchase_row)) :
  option_map (map purchase_facts) (option_map fill_missing_ratings u) =
  option_map (map purchase_facts) u.
Proof.
  destruct u; simpl; [| reflexivity].
  unfold fill_missing_ratings. now rewrite map_purchase_facts_fill.
Qed.

(** With customers in place, the statements of [transform_and_load] keep
    customers and all of purchases but the ratings. *)
Lemma transform_keeps_purchase_facts (d : database) (c : list customer_row) :
  customers d = Some c ->
  let d' := exec UpdateMissingRatings
              (db_schema_normalizer (exec UpdateYesNo d)) in
  customers d' = Some c /\
  option_map (map purchase_facts) (purchases d') =
    option_map (map purchase_facts) (purchases d).
Proof.
  intros C d'. unfold d'.
  destruct (exec_UpdateYesNo d) as (_ & _ & A3 & _ & A5).
  rewrite db_schema_normalizer_guarded by now rewrite A3, C.
  destruct (exec_UpdateMissingRatings (exec UpdateYesNo d))
    as (_ & _ & B3 & _ & B5).
  rewrite B3, B5, A3, A5, option_map_purchase_facts_fill. auto.
Qed.

Lemma perform_keeps_purchase_facts (r : run) (w : world)
    (c : list customer_row) :
  customers (db w) = Some c ->
  exists w' : world,
    perform r w = Returned tt w' /\
    customers (db w') = Some c /\
    option_map (map purchase_facts) (purchases (db w')) =
      option_map (map purchase_facts) (purchases (db w)).
Proof.
  intros C. destruct r as [data |]; cbn [perform].
  - destruct (etl_db data w) as (w' & R & D). exists w'.
    split; [assumption |]. rewrite D. unfold db_etl.
    apply (transform_keeps_purchase_facts (set_staging (db w) _) c C).
  - destruct (transform_and_load_db w) as (w' & R & D). exists w'.
    split; [assumption |]. rewrite D.
    now apply transform_keeps_purchase_facts.
Qed.

(** X20.  Once customers exists, no later run ([etl] on any data, or
    [transform_and_load] alone) adds or removes a purchase or changes its
    customer_id, item_purchased, purchase_amount or location: customers
    loaded into staging later never reach purchases. *)
Theorem later_runs_keep_purchases (runs : list run) :
  forall (w : world) (c : list customer_row),
    customers (db w) = Some c ->
    exists w' : world,
      for_each runs perform w = Returned tt w' /\
      same_rows (option_map (map purchase_facts) (purchases (db w')))
                (option_map (map purchase_facts) (purchases (db w))).
Proof.
  induction runs as [| r runs IH]; intros w c C; cbn [for_each].
  - exists w. split; [reflexivity | apply same_rows_refl].
  - unfold bind.
    destruct (perform_keeps_purchase_facts r w c C) as (w1 & -> & C1 & F1).
    destruct (IH w1 c C1) as (w' & R & F). exists w'.
    split; [assumption | now rewrite <- F1].
Qed.

End Runs.

(** ** The further properties at concrete stores and inputs *)

Section MoreExamples.

#[local] Existing Instance dataset_adapter.

(** Witness of X2, the labels of the example batches. *)
Lemma mapped_labels_leave_no_unconsumed_column_witness :
  Forall (fun rec => unconsumed_column_names rec = [])
         (to_dict (rename column_mapping batch_with_null_key)).
Proof.
  apply (mapped_labels_leave_no_unconsumed_column batch_with_null_key).
  cbn [batch_with_null_key simple_columns columns].
  repeat (apply Forall_cons; [left; vm_compute; discriminate |]).
  apply Forall_nil.
Defined.

(** Witness of X3, a file with the column Loyalty Tier, on a store without
    tables. *)
Lemma load_to_staging_unmapped_label_witness :
  exists (l : list string) (rec : record),
    In "Loyalty Tier" l /\
    load_to_staging batch_unmapped_label (world_of empty_database) =
    Returned tt
      (mkWorld (db (world_of empty_database))
         (log (world_of empty_database)
          ++ [Message (CompileError l); Traceback (CompileError l)])
         (history (world_of empty_database) ++ [Upsert rec])).
Proof.
  apply (load_to_staging_unmapped_label
           batch_unmapped_label (world_of empty_database) "Loyalty Tier"
           [Int 1; Text "Blouse"; Float 4; Text "Yes"; Text "Gold"] []).
  - reflexivity.
  - simpl. lia.
  - simpl. tauto.
  - reflexivity.
  - intros H. apply in_schema_iff in H. vm_compute in H. discriminate.
Defined.

Example load_to_staging_unmapped_label_run :
  load_to_staging batch_unmapped_label (world_of (staged [row_2])) =
  Returned tt
    (mkWorld (staged [row_2])
       [Message (CompileError ["Loyalty Tier"]);
        Traceback (CompileError ["Loyalty Tier"])]
       [Upsert (record_1 ++ [("Loyalty Tier", Text "Gold")])%list]).
Proof. reflexivity. Qed.

(** Witness of X5, customers 1 and 2 in staging and a batch with
    customers 1, 3 and 1. *)
Lemma load_to_staging_keeps_customers_witness :
  exists (w' : world) (t' : list staging_row),
    load_to_staging batch_repeated_key (world_of (staged [row_1; row_2])) =
      Returned tt w' /\
    staging (db w') = Some t' /\
    (forall k, In k (ids [row_1; row_2]) -> In k (ids t')) /\
    (List.length [row_1; row_2] <= List.length t')%nat.
Proof.
  apply (load_to_staging_keeps_customers
           batch_repeated_key (world_of (staged [row_1; row_2]))
           [row_1; row_2]).
  reflexivity.
Defined.

(** Witness of X6, customer 1 in staging and a file with customer 2. *)
Lemma load_to_staging_inserts_new_customer_witness :
  load_to_staging file_customer_2 (world_of (staged [row_1])) =
  Returned tt
    (mkWorld (set_staging (db (world_of (staged [row_1]))) ([row_1] ++ [row_2]))
       (log (world_of (staged [row_1])))
       (history (world_of (staged [row_1])) ++ [Upsert record_2])).
Proof.
  apply (load_to_staging_inserts_new_customer
           file_customer_2 (world_of (staged [row_1])) [row_1] record_2 row_2).
  - reflexivity.
  - reflexivity.
  - reflexivity.
  - simpl. intros [H | []]. discriminate.
Defined.

(** Witness of X8, a staging table of two rows. *)
Lemma convert_yes_no_to_boolean_frame_witness :
  exists (w' : world) (t' : list staging_row),
    convert_yes_no_to_boolean (world_of (staged [yes_row; row_2])) =
      Returned tt w' /\
    staging (db w') = Some t' /\
    Forall2 (fun before after => other_columns after = other_columns before)
            [yes_row; row_2] t' /\
    customers (db w') = customers (db (world_of (staged [yes_row; row_2]))) /\
    products (db w') = products (db (world_of (staged [yes_row; row_2]))) /\
    purchases (db w') = purchases (db (world_of (staged [yes_row; row_2]))) /\
    indexes (db w') = indexes (db (world_of (staged [yes_row; row_2]))).
Proof.
  apply (convert_yes_no_to_boolean_frame
           (world_of (staged [yes_row; row_2])) [yes_row; row_2]).
  reflexivity.
Defined.

(** Witness of X9, the same staging table. *)
Lemma convert_yes_no_to_boolean_twice_all_false_witness :
  exists (w1 w2 w3 : world) (t2 : list staging_row),
    convert_yes_no_to_boolean (world_of (staged [yes_row; row_2])) =
      Returned tt w1 /\
    convert_yes_no_to_boolean w1 = Returned tt w2 /\
    convert_yes_no_to_boolean w2 = Returned tt w3 /\
    staging (db w2) = Some t2 /\
    Forall (fun r => statuses r = (Some "false", Some "false", Some "false"))
           t2 /\
    log w2 = log (world_of (staged [yes_row; row_2])) /\
    db w3 = db w2.
Proof.
  apply (convert_yes_no_to_boolean_twice_all_false
           (world_of (staged [yes_row; row_2])) [yes_row; row_2]).
  reflexivity.
Defined.

(** Witness of X10, the store without tables. *)
Lemma transform_and_load_without_staging_witness :
  exists w' : world,
    transform_and_load (world_of empty_database) = Returned tt w' /\
    db w' = db (world_of empty_database) /\
    List.length (log w') =
      (List.length (log (world_of empty_database)) + 12)%nat.
Proof.
  apply (transform_and_load_without_staging (world_of empty_database));
    reflexivity.
Defined.

(** Witness of X11, customers 1 and 2 in staging. *)
Lemma create_customers_table_one_row_per_customer_witness :
  exists (w' : world) (c : list customer_row),
    create_customers_table (world_of (staged [row_1; row_2])) =
      Returned tt w' /\
    customers (db w') = Some c /\
    List.length c = List.length [row_1; row_2] /\
    NoDup (map c_customer_id c) /\
    (forall x, In x c <-> exists r, In r [row_1; row_2] /\ x = customer_of r) /\
    log w' = log (world_of (staged [row_1; row_2])).
Proof.
  apply (create_customers_table_one_row_per_customer
           (world_of (staged [row_1; row_2])) [row_1; row_2]).
  - reflexivity.
  - reflexivity.
  - simpl. repeat constructor; simpl; intuition discriminate.
Defined.

(** Witness of X12, two customers who bought the same product and a third
    who bought another. *)
Lemma create_products_table_distinct_witness :
  exists (w' : world) (p : list product_row),
    create_products_table (world_of (staged [row_5; row_7; row_2])) =
      Returned tt w' /\
    products (db w') = Some p /\
    NoDup p /\
    (forall x, In x p <->
               exists r, In r [row_5; row_7; row_2] /\ x = product_of r) /\
    (List.length p <= List.length [row_5; row_7; row_2])%nat.
Proof.
  apply (create_products_table_distinct
           (world_of (staged [row_5; row_7; row_2])) [row_5; row_7; row_2]);
    reflexivity.
Defined.

Example create_products_table_run :
  exists w' : world,
    create_products_table (world_of (staged [row_5; row_7; row_2])) =
      Returned tt w' /\
    products (db w') = Some [product_of row_7; product_of row_2] /\
    product_of row_5 = product_of row_7.
Proof. eexists. repeat split; reflexivity. Qed.

(** Witness of X13, [create_purchases_table] on a store that has staging
    and purchases. *)
Lemma create_table_keeps_existing_witness :
  create_purchases_table (world_of (normalized purchases_scenario)) =
  Returned tt
    (mkWorld (normalized purchases_scenario)
       [Message (DuplicateTable "purchases");
        Traceback (DuplicateTable "purchases")]
       [CreatePurchases]).
Proof.
  apply (create_table_keeps_existing
           create_purchases_table "purchases" CreatePurchases
           (world_of (normalized purchases_scenario))).
  - right. right. left. reflexivity.
  - reflexivity.
Defined.

(** Witness of X14, the index on customer_id of a staging table without
    index. *)
Lemma create_index_twice_witness :
  exists w1 w2 : world,
    create_index "customer_id" (world_of (staged [row_1])) = Returned tt w1 /\
    indexes (db w1) =
      (indexes (db (world_of (staged [row_1])))
       ++ [index_name "customer_id"])%list /\
    log w1 = log (world_of (staged [row_1])) /\
    create_index "customer_id" w1 = Returned tt w2 /\
    db w2 = db w1 /\
    log w2 =
      (log w1 ++ [Message (DuplicateTable (index_name "customer_id"));
                  Traceback (DuplicateTable (index_name "customer_id"))])%list.
Proof.
  apply (create_index_twice (world_of (staged [row_1])) [row_1] "customer_id").
  - reflexivity.
  - apply in_schema_iff. reflexivity.
  - simpl. tauto.
Defined.

(** Witness of X17, ratings null, 4 and 2. *)
Lemma update_missing_review_ratings_keeps_average_witness :
  exists (w' : world) (rows' : list purchase_row) (a a' : Q),
    update_missing_review_ratings (world_of (normalized purchases_scenario)) =
      Returned tt w' /\
    purchases (db w') = Some rows' /\
    AVG (non_null_ratings purchases_scenario) = Some a /\
    AVG (non_null_ratings rows') = Some a' /\
    (a' == a)%Q.
Proof.
  apply (update_missing_review_ratings_keeps_average
           (world_of (normalized purchases_scenario)) purchases_scenario).
  - reflexivity.
  - discriminate.
Defined.

(** Witness of X18, a file of two rows without missing cell, on a store
    without tables. *)
Lemma etl_twice_same_data_witness :
  exists w1 w2 : world,
    etl batch_complete (world_of empty_database) = Returned tt w1 /\
    etl batch_complete w1 = Returned tt w2 /\
    same_store (db w2) (db w1).
Proof.
  apply (etl_twice_same_data batch_complete (world_of empty_database)).
  - repeat (apply Forall_cons; [reflexivity |]). apply Forall_nil.
  - left. reflexivity.
Defined.

(** Witness of X19, the same file and store. *)
Lemma etl_first_run_witness :
  let recs := to_dict (rename column_mapping batch_complete) in
  let S := map yes_no_to_boolean (upsert_all (accepted_prefix recs) []) in
  exists w' : world,
    etl batch_complete (world_of empty_database) = Returned tt w' /\
    same_rows (staging (db w')) (Some S) /\
    NoDup (ids S) /\
    Permutation (indexes (db w')) ["idx_customer_id"] /\
    same_rows (customers (db w')) (Some (map customer_of S)) /\
    (exists p : list product_row,
       products (db w') = Some p /\
       NoDup p /\
       (forall x, In x p <-> exists r, In r S /\ x = product_of r)) /\
    same_rows (purchases (db w'))
              (Some (fill_missing_ratings (map purchase_of S))) /\
    log w' =
      (log (world_of empty_database) ++
       match first_failure recs with
       | None => []
       | Some e => [Message e; Traceback e]
       end)%list.
Proof.
  apply (etl_first_run batch_complete (world_of empty_database)).
  - reflexivity.
  - repeat (apply Forall_cons; [reflexivity |]). apply Forall_nil.
Defined.

(** Witness of X20, a normalized store and two later runs, the first with
    two new customers. *)
Lemma later_runs_keep_purchases_witness :
  exists w' : world,
    for_each [Run_etl batch_complete; Run_transform_and_load] perform
      (world_of (normalized purchases_scenario)) = Returned tt w' /\
    same_rows
      (option_map (map purchase_facts) (purchases (db w')))
      (option_map (map purchase_facts)
         (purchases (db (world_of (normalized purchases_scenario))))).
Proof.
  apply (later_runs_keep_purchases
           [Run_etl batch_complete; Run_transform_and_load]
           (world_of (normalized purchases_scenario)) []).
  reflexivity.
Defined.

End MoreExamples.
